(** * Customer risk analysis: a shallow embedding of [risk_analyzer.py]

    The development embeds the scoring engine of [CustomerRiskAnalyzer]
    (turn extraction, the sentiment, cooperation, keyword and
    conversation-flow signals, the weighted aggregation, the threshold
    classification, the indicator collector, the language-switch detector
    and the recommendation synthesis) and proves properties of it.

    Modelling conventions.
    - A Python [str] is a [string]: the UTF-8 bytes of the text.  The
      keyword tables are copied byte for byte from the source.  A substring
      test between valid UTF-8 texts gives the same answer on bytes as on
      code points, UTF-8 being self-synchronising.
    - A Python [int] is a [Z].  A Python [float] is an exact rational [Q]:
      rounding is not modelled, and equalities between scores are stated
      with [==].  A score that the exact computation puts on a threshold
      can fall a rounding error away from it in floating point.
    - [Py.lower] and [Py.split] are [str.lower()] and [str.split()] on
      ASCII text: letters and white space outside ASCII are left to
      themselves.
    - A [for] loop that updates local variables is a [fold_left] over the
      tuple of those variables; [list.append] adds at the end.
    - Reading and decoding the transcript file is outside the model:
      [analyze_transcript] receives the decoded document, and the clock
      reading used for [analysis_timestamp] is an argument. *)

From Stdlib Require Import List String Ascii Bool ZArith QArith Qminmax Lia Lqa.
From Stdlib Require Import DecimalString Sorted Permutation.
Import ListNotations.

Open Scope string_scope.
Open Scope list_scope.
Open Scope Z_scope.

(** ** Python built-ins used by the analyzer *)

Module Py.

(** [needle in hay] for two strings. *)
Fixpoint str_in (needle hay : string) : bool :=
  if String.prefix needle hay then true
  else match hay with
       | EmptyString => false
       | String _ rest => str_in needle rest
       end.

(** [c.lower()] on one byte: the ASCII capitals move to small letters.
    Bytes above 127 (the Devanagari of the lexicon has no case) are left
    as they are. *)
Definition chr_lower (c : ascii) : ascii :=
  let n := nat_of_ascii c in
  if ((65 <=? n) && (n <=? 90))%nat then ascii_of_nat (n + 32) else c.

(** [s.lower()]. *)
Fixpoint lower (s : string) : string :=
  match s with
  | EmptyString => EmptyString
  | String c rest => String (chr_lower c) (lower rest)
  end.

(** [sep.join(parts)]. *)
Definition join (sep : string) (parts : list string) : string :=
  String.concat sep parts.

(** The white space of [str.split()] in the ASCII range: TAB, LF, VT, FF,
    CR, FS, GS, RS, US and the space. *)
Definition isspace (c : ascii) : bool :=
  let n := nat_of_ascii c in
  (((9 <=? n) && (n <=? 13)) || ((28 <=? n) && (n <=? 32)))%nat.

(** [s.split()]: the maximal runs of non-space characters, in order.
    [cur] is the run being read. *)
Fixpoint split_from (cur : string) (s : string) : list string :=
  match s with
  | EmptyString => if String.eqb cur "" then [] else [cur]
  | String c rest =>
      if isspace c then
        if String.eqb cur "" then split_from "" rest
        else cur :: split_from "" rest
      else split_from (cur ++ String c "")%string rest
  end.

Definition split (s : string) : list string := split_from "" s.

(** [len(l)] as a Python integer. *)
Definition len {A : Type} (l : list A) : Z := Z.of_nat (List.length l).

(** [sum(l)] for integers: starts from [0] and adds from the left. *)
Definition sum (l : list Z) : Z := fold_left Z.add l 0.

(** [l[:n]]. *)
Definition slice_to {A : Type} (n : nat) (l : list A) : list A := firstn n l.

(** [a < b] and [a > b] on floats, as booleans. *)
Definition Qltb (a b : Q) : bool := negb (Qle_bool b a).
Definition Qgtb (a b : Q) : bool := Qltb b a.

End Py.

(** [sum(1 for word in words if word in content)]. *)
Definition count_in (words : list string) (content : string) : Z :=
  Py.sum (map (fun _ => 1) (filter (fun word => Py.str_in word content) words)).

(** ** Data model *)

Inductive RiskLevel : Type := LOW | MEDIUM | HIGH | CRITICAL.

(** [RiskLevel.value]. *)
Definition RiskLevel_value (l : RiskLevel) : string :=
  match l with
  | LOW => "Low" | MEDIUM => "Medium" | HIGH => "High" | CRITICAL => "Critical"
  end.

Record RiskAnalysis : Type := mkRiskAnalysis {
  risk_level : RiskLevel;
  risk_score : Q;
  sentiment_score : Q;
  cooperation_score : Q;
  key_indicators : list string;
  recommendations : list string;
  transcript_file : string;
  analysis_timestamp : string
}.

(** One element of the [items] array of a transcript document.  Every key
    is optional, as the code reads each of them with [dict.get]. *)
Record item : Type := mkItem {
  item_type : option string;
  item_role : option string;
  item_content : option (list string);
  item_interrupted : option bool;
  item_transcript_confidence : option Q
}.

(** The decoded transcript document; [items] may be absent. *)
Record transcript : Type := mkTranscript {
  items : option (list item)
}.

(** The dictionaries built for the customer's and the agent's messages. *)
Record user_message : Type := mkUser {
  content : string;
  interrupted : bool;
  confidence : Q
}.

Record assistant_message : Type := mkAssistant {
  a_content : string;
  a_interrupted : bool
}.

(** [d.get(key, default)]. *)
Definition get {A : Type} (field : option A) (default : A) : A :=
  match field with Some v => v | None => default end.

(** [field == text] for an optional string field. *)
Definition field_is (field : option string) (text : string) : bool :=
  match field with Some v => String.eqb v text | None => false end.

(** ** The lexicon set up by [CustomerRiskAnalyzer.__init__]

    The five tables are Python lists, kept here in the order and with the
    repetitions of the source. *)

Definition high_risk_keywords : list string :=
  [ "can't pay"; "no money"; "broke"; "unemployed"; "lost job";
    "bankruptcy"; "lawyer"; "dispute"; "wrong"; "not mine";
    "never received"; "scam"; "harassment"; "sue"; "court"; "refuse";
    "won't pay"; "can't afford"; "financial hardship"; "पैसे नहीं";
    "पैसा नहीं"; "बेरोजगार"; "नौकरी नहीं"; "गलत"; "मेरा नहीं";
    "नहीं मिला"; "धोखा"; "गलत नंबर"; "वकील"; "अदालत"; "केस"; "मना करता";
    "paisa nahi"; "paise nahi"; "berozgar"; "naukri nahi"; "galat hai";
    "mera nahi"; "nahi mila"; "dhoka"; "galat number"; "vakeel";
    "adalat"; "case karunga"; "mana karta"; "afford nahi kar sakta";
    "bankruptcy"; "paisa khatam"; "financial problem"; "court jaaunga";
    "lawyer se baat" ].

Definition medium_risk_keywords : list string :=
  [ "difficult"; "tight"; "struggling"; "need time"; "extension";
    "payment plan"; "partial"; "later"; "next month"; "busy"; "forgot";
    "remind me"; "will try"; "maybe"; "not sure"; "मुश्किल"; "परेशानी";
    "समय चाहिए"; "भूल गया"; "बाद में"; "अगले महीने"; "व्यस्त";
    "कोशिश करूंगा"; "शायद"; "पता नहीं"; "थोड़ा समय"; "mushkil";
    "pareshani"; "samay chahiye"; "bhul gaya"; "baad mein";
    "agle mahine"; "vyast"; "busy hun"; "koshish karunga"; "shayad";
    "pata nahi"; "thoda samay"; "time chahiye"; "extension chahiye";
    "payment plan"; "partial payment"; "installment mein"; "emi mein" ].

Definition low_risk_keywords : list string :=
  [ "yes"; "okay"; "sure"; "will pay"; "today"; "tomorrow"; "understand";
    "sorry"; "apologize"; "thank you"; "appreciate"; "payment";
    "pay now"; "confirm"; "agreed"; "right away"; "हाँ"; "ठीक";
    "समझ गया"; "माफ़ करो"; "धन्यवाद"; "शुक्रिया"; "सही"; "आज"; "कल";
    "अभी"; "तुरंत"; "पेमेंट"; "भुगतान"; "देता हूँ"; "haan"; "theek";
    "theek hai"; "samjh gaya"; "maaf karo"; "dhanyawad"; "shukriya";
    "thank you"; "sahi"; "aaj"; "kal"; "abhi"; "turant";
    "payment kar dunga"; "paisa de dunga"; "bhugtan"; "pay kar dunga";
    "samay pe dunga"; "confirm"; "agreed"; "bilkul"; "zaroor" ].

Definition cooperation_indicators : list string :=
  [ "thank you"; "sorry"; "understand"; "appreciate"; "yes"; "okay";
    "sure"; "will do"; "agreed"; "right"; "haan"; "theek"; "theek hai";
    "samjh gaya"; "maaf karo"; "shukriya"; "dhanyawad"; "bilkul";
    "zaroor"; "kar dunga"; "de dunga"; "samjha"; "acha"; "sahi"; "ठीक";
    "हाँ"; "समझ गया"; "माफ़ करो"; "धन्यवाद"; "शुक्रिया"; "बिल्कुल";
    "जरूर"; "अच्छा"; "सही" ].

Definition non_cooperation_indicators : list string :=
  [ "no"; "can't"; "won't"; "refuse"; "busy"; "later"; "maybe";
    "not now"; "call back"; "don't have time"; "not interested"; "nahi";
    "nahin"; "mana"; "vyast"; "busy"; "baad mein"; "phone rakh";
    "time nahi"; "interested nahi"; "pareshaan mat karo";
    "tang mat karo"; "नहीं"; "मना"; "व्यस्त"; "बाद में"; "फोन रख";
    "समय नहीं"; "परेशान मत करो"; "तंग मत करो"; "call back";
    "later call karo"; "abhi nahi" ].

(** ** Tables local to the methods *)

(** [positive_words] and [negative_words] of [_analyze_sentiment]. *)
Definition positive_words : list string :=
  [ "thank"; "sorry"; "appreciate"; "understand"; "yes"; "okay"; "good";
    "fine"; "great"; "excellent"; "wonderful"; "happy"; "pleased";
    "satisfied"; "dhanyawad"; "shukriya"; "maaf karo"; "samjh gaya";
    "theek"; "acha"; "badhiya"; "khushi"; "santushti"; "prasanna";
    "haan"; "bilkul"; "zaroor"; "accha"; "sahi"; "badiya"; "mast";
    "sundar"; "samjha"; "theek hai"; "धन्यवाद"; "शुक्रिया"; "माफ़ करो";
    "समझ गया"; "ठीक"; "अच्छा"; "बढ़िया"; "खुशी"; "संतुष्टि"; "प्रसन्न";
    "हाँ"; "बिल्कुल"; "जरूर"; "सही" ].

Definition negative_words : list string :=
  [ "no"; "can't"; "won't"; "angry"; "upset"; "wrong"; "bad"; "hate";
    "refuse"; "terrible"; "awful"; "horrible"; "disgusted"; "furious";
    "annoyed"; "nahi"; "nahin"; "gussa"; "pareshaan"; "galat"; "bura";
    "nafrat"; "mana"; "tang"; "irritate"; "problem"; "mushkil";
    "takleef"; "dukh"; "ghussa"; "pareshan"; "khafa"; "chid";
    "badtameez"; "bakwas"; "नहीं"; "गुस्सा"; "परेशान"; "गलत"; "बुरा";
    "नफरत"; "मना"; "तंग"; "समस्या"; "मुश्किल"; "तकलीफ"; "दुःख"; "खफा";
    "चिढ़"; "बदतमीज"; "बकवास" ].

(** The dictionary of [_translate_keyword_for_report], as the list of its
    key and value pairs; no key occurs twice. *)
Definition translations : list (string * string) :=
  [ ("पैसे नहीं", "no money");
    ("पैसा नहीं", "no money");
    ("बेरोजगार", "unemployed");
    ("नौकरी नहीं", "no job");
    ("गलत", "wrong");
    ("मेरा नहीं", "not mine");
    ("नहीं मिला", "never received");
    ("धोखा", "fraud/scam");
    ("वकील", "lawyer");
    ("अदालत", "court");
    ("केस", "case");
    ("मुश्किल", "difficult");
    ("परेशानी", "problem/trouble");
    ("समय चाहिए", "need time");
    ("भूल गया", "forgot");
    ("बाद में", "later");
    ("व्यस्त", "busy");
    ("हाँ", "yes");
    ("ठीक", "okay");
    ("समझ गया", "understood");
    ("माफ़ करो", "sorry");
    ("धन्यवाद", "thank you");
    ("शुक्रिया", "thank you");
    ("नहीं", "no");
    ("गुस्सा", "angry");
    ("परेशान", "upset/troubled") ].

(** The phrase lists of [_detect_hinglish_patterns]. *)
Definition evasive_phrases : list string :=
  [ "abhi busy hun"; "time nahi hai"; "baad mein call karo";
    "pareshaan mat karo"; "tang mat karo"; "galat number hai";
    "mujhe pata nahi"; "kuch nahi pata"; "samjh nahi aaya" ].

Definition hostile_phrases : list string :=
  [ "phone rakh"; "bakwas mat karo"; "jhooth bol rahe ho"; "scam hai ye";
    "fraud company"; "police complaint karunga" ].

Definition distress_phrases : list string :=
  [ "paisa nahi hai"; "afford nahi kar sakta"; "salary nahi aayi";
    "job chali gayi"; "business band ho gaya"; "EMI bhi nahi de pa raha" ].

(** The marker lists of [_detect_language_switching]. *)
Definition hindi_indicators : list string :=
  [ "nahi"; "hai"; "kar"; "se"; "mein"; "ko"; "ka"; "ki"; "ke" ].

Definition english_indicators : list string :=
  [ "the"; "and"; "is"; "are"; "can"; "will"; "have"; "not" ].

(** ** [analyze_transcript]: separating the customer's and the agent's messages *)

(** One pass of the loop over [items]; the state is the pair
    [(user_messages, assistant_messages)]. *)
Definition classify_item
    (st : list user_message * list assistant_message) (it : item)
  : list user_message * list assistant_message :=
  let '(user_messages, assistant_messages) := st in
  if field_is (item_type it) "message" then
    let content := Py.lower (Py.join " " (get (item_content it) [])) in
    if field_is (item_role it) "user" then
      (user_messages ++
         [ {| content := content;
              interrupted := get (item_interrupted it) false;
              confidence := get (item_transcript_confidence it) 1%Q |} ],
       assistant_messages)
    else if field_is (item_role it) "assistant" then
      (user_messages,
       assistant_messages ++
         [ {| a_content := content;
              a_interrupted := get (item_interrupted it) false |} ])
    else st
  else st.

Definition separate_messages (transcript_data : transcript)
  : list user_message * list assistant_message :=
  let items := get (items transcript_data) [] in
  fold_left classify_item items ([], []).

(** ** The signal extractors *)

(** One pass of the loop of [_analyze_sentiment]; the state is
    [(total_sentiment, message_count)]. *)
Definition sentiment_turn (st : Q * Z) (msg : user_message) : Q * Z :=
  let '(total_sentiment, message_count) := st in
  let positive_count := count_in positive_words (content msg) in
  let negative_count := count_in negative_words (content msg) in
  if (0 <? positive_count) || (0 <? negative_count) then
    let msg_sentiment :=
      (inject_Z (positive_count - negative_count)
       / inject_Z (Z.max (positive_count + negative_count) 1))%Q in
    ((total_sentiment + msg_sentiment)%Q, message_count + 1)
  else st.

Definition _analyze_sentiment (user_messages : list user_message) : Q :=
  match user_messages with
  | [] => 0%Q
  | _ =>
      let '(total_sentiment, message_count) :=
        fold_left sentiment_turn user_messages (0%Q, 0) in
      (total_sentiment / inject_Z (Z.max message_count 1))%Q
  end.

(** The two inner loops of [_analyze_cooperation]; the state is
    [(cooperation_points, total_indicators)]. *)
Definition cooperation_hit (content : string) (st : Z * Z) (indicator : string)
  : Z * Z :=
  let '(cooperation_points, total_indicators) := st in
  if Py.str_in indicator content
  then (cooperation_points + 1, total_indicators + 1)
  else st.

Definition non_cooperation_hit (content : string) (st : Z * Z)
    (indicator : string) : Z * Z :=
  let '(cooperation_points, total_indicators) := st in
  if Py.str_in indicator content
  then (cooperation_points - 1, total_indicators + 1)
  else st.

(** The body of the outer loop. *)
Definition cooperation_turn (st : Z * Z) (msg : user_message) : Z * Z :=
  let st := fold_left (cooperation_hit (content msg)) cooperation_indicators st in
  fold_left (non_cooperation_hit (content msg)) non_cooperation_indicators st.

Definition _analyze_cooperation (user_messages : list user_message) : Q :=
  match user_messages with
  | [] => 50%Q
  | _ =>
      let '(cooperation_points, total_indicators) :=
        fold_left cooperation_turn user_messages (0, 0) in
      if total_indicators =? 0 then 50%Q
      else
        let cooperation_ratio :=
          (inject_Z cooperation_points / inject_Z total_indicators)%Q in
        Qmax 0 (Qmin 100 (50 + cooperation_ratio * 50))
  end.

(** [' '.join(msg['content'] for msg in user_messages)]. *)
Definition all_content_of (user_messages : list user_message) : string :=
  Py.join " " (map content user_messages).

Definition _analyze_keywords (user_messages : list user_message) : Q :=
  match user_messages with
  | [] => 0%Q
  | _ =>
      let all_content := all_content_of user_messages in
      let high_risk_count := count_in high_risk_keywords all_content in
      let medium_risk_count := count_in medium_risk_keywords all_content in
      let low_risk_count := count_in low_risk_keywords all_content in
      let risk_score :=
        (high_risk_count * 30) + (medium_risk_count * 15) - (low_risk_count * 10) in
      inject_Z (Z.max 0 (Z.min 100 risk_score))
  end.

Definition _analyze_conversation_flow
    (user_messages : list user_message)
    (assistant_messages : list assistant_message) : Q :=
  let risk_score := 0%Q in
  let user_interruptions :=
    Py.sum (map (fun _ => 1) (filter (fun msg => interrupted msg) user_messages)) in
  let risk_score :=
    if 2 <? user_interruptions then (risk_score + 20)%Q else risk_score in
  let short_responses :=
    Py.sum (map (fun _ => 1)
              (filter (fun msg => Py.len (Py.split (content msg)) <=? 2)
                      user_messages)) in
  let risk_score :=
    if (0 <? Py.len user_messages)
       && Py.Qgtb (inject_Z short_responses / inject_Z (Py.len user_messages)) 0.7
    then (risk_score + 15)%Q else risk_score in
  let low_confidence_count :=
    Py.sum (map (fun _ => 1)
              (filter (fun msg => Py.Qltb (confidence msg) 0.7) user_messages)) in
  let risk_score :=
    if (0 <? Py.len user_messages)
       && Py.Qgtb (inject_Z low_confidence_count / inject_Z (Py.len user_messages)) 0.5
    then (risk_score + 10)%Q else risk_score in
  Qmin 100 risk_score.

(** ** The aggregator and the classification *)

Definition _calculate_risk_score (sentiment cooperation keyword_risk flow_risk : Q)
  : Q :=
  let sentiment_risk := Qmax 0 ((1 - sentiment) * 50) in
  let cooperation_risk := (100 - cooperation)%Q in
  let w_sentiment := 0.25%Q in
  let w_cooperation := 0.35%Q in
  let w_keywords := 0.30%Q in
  let w_flow := 0.10%Q in
  let risk_score :=
    (sentiment_risk * w_sentiment +
     cooperation_risk * w_cooperation +
     keyword_risk * w_keywords +
     flow_risk * w_flow)%Q in
  Qmin 100 (Qmax 0 risk_score).

Definition _determine_risk_level (risk_score : Q) : RiskLevel :=
  if Qle_bool 75 risk_score then CRITICAL
  else if Qle_bool 50 risk_score then HIGH
  else if Qle_bool 25 risk_score then MEDIUM
  else LOW.

(** ** The indicator collector *)

(** [translations.get(keyword, keyword)]. *)
Fixpoint dict_get (d : list (string * string)) (key default : string) : string :=
  match d with
  | [] => default
  | (k, v) :: rest => if String.eqb k key then v else dict_get rest key default
  end.

Definition _translate_keyword_for_report (keyword : string) : string :=
  dict_get translations keyword keyword.

(** A loop [for x in xs: if x in text: out.append(render x)], started with
    the list [out]. *)
Definition append_matches (render : string -> string) (text : string)
    (xs : list string) (out : list string) : list string :=
  fold_left
    (fun out x => if Py.str_in x text then out ++ [render x] else out)
    xs out.

Definition _detect_hinglish_patterns (content : string) : list string :=
  let patterns := [] in
  let patterns :=
    append_matches (fun phrase => "Evasive Hinglish phrase: '" ++ phrase ++ "'")%string
      content evasive_phrases patterns in
  let patterns :=
    append_matches (fun phrase => "Hostile Hinglish phrase: '" ++ phrase ++ "'")%string
      content hostile_phrases patterns in
  let patterns :=
    append_matches
      (fun phrase => "Financial distress indicator: '" ++ phrase ++ "'")%string
      content distress_phrases patterns in
  patterns.

(** The tag appended to [language_pattern] for one message. *)
Definition language_tag (msg : user_message) : string :=
  let hindi_count := count_in hindi_indicators (content msg) in
  let english_count := count_in english_indicators (content msg) in
  if english_count <? hindi_count then "H"
  else if hindi_count <? english_count then "E"
  else "M".

(** The loop [for i in range(len(language_pattern) - 1)], reading the list
    by index. *)
Definition count_switches (language_pattern : list string) : Z :=
  fold_left
    (fun switches i =>
       let a := nth i language_pattern "" in
       let b := nth (i + 1) language_pattern "" in
       if negb (String.eqb a b) && negb (String.eqb a "M") && negb (String.eqb b "M")
       then switches + 1 else switches)
    (seq 0 (List.length language_pattern - 1)) 0.

Definition _detect_language_switching (user_messages : list user_message) : bool :=
  if Py.len user_messages <? 3 then false
  else
    let language_pattern :=
      fold_left (fun pattern msg => pattern ++ [language_tag msg]) user_messages [] in
    let switches := count_switches language_pattern in
    Py.Qgtb (inject_Z switches) (inject_Z (Py.len language_pattern) * 0.3).

Definition avoidance_flag : string :=
  "No user responses - possible call avoidance".
Definition disengagement_flag : string :=
  "Very brief response - possible disengagement".
Definition switching_flag : string :=
  "Frequent language switching - possible avoidance tactic".

Definition _identify_key_indicators (user_messages : list user_message)
  : list string :=
  let indicators := [] in
  let all_content := all_content_of user_messages in
  let indicators :=
    append_matches
      (fun keyword =>
         "High risk keyword: '" ++ _translate_keyword_for_report keyword ++ "'")%string
      all_content high_risk_keywords indicators in
  let indicators :=
    append_matches
      (fun keyword =>
         "Medium risk keyword: '" ++ _translate_keyword_for_report keyword ++ "'")%string
      all_content medium_risk_keywords indicators in
  let hinglish_patterns := _detect_hinglish_patterns all_content in
  let indicators := indicators ++ hinglish_patterns in
  let indicators :=
    match user_messages with
    | [] => indicators ++ [avoidance_flag]
    | [only] =>
        if Py.len (Py.split (content only)) <=? 2
        then indicators ++ [disengagement_flag]
        else indicators
    | _ => indicators
    end in
  let indicators :=
    if _detect_language_switching user_messages
    then indicators ++ [switching_flag]
    else indicators in
  Py.slice_to 7 indicators.

(** ** The recommendations *)

(** [any(p(ind) for ind in indicators)]. *)
Definition any_indicator (p : string -> bool) (indicators : list string) : bool :=
  existsb p indicators.

Definition _get_hinglish_recommendations (indicators : list string) : list string :=
  let recommendations := [] in
  let indicator_text := Py.lower (Py.join " " indicators) in
  let recommendations :=
    if Py.str_in "evasive hinglish phrase" indicator_text
    then recommendations ++
           ["Customer using evasive Hinglish - try direct Hindi approach"]
    else recommendations in
  let recommendations :=
    if Py.str_in "hostile hinglish phrase" indicator_text
    then recommendations ++
           ["Customer showing hostility in Hinglish - escalate to Hindi-speaking senior agent"]
    else recommendations in
  let recommendations :=
    if Py.str_in "financial distress indicator" indicator_text
    then recommendations ++
           ["Financial distress detected - offer EMI/installment options in Hindi"]
    else recommendations in
  let recommendations :=
    if Py.str_in "language switching" indicator_text
    then recommendations ++
           ["Customer switching languages - may indicate discomfort, use consistent Hindi"]
    else recommendations in
  let recommendations :=
    if any_indicator
         (fun ind => Py.str_in "no money" ind || Py.str_in "unemployed" ind
                     || Py.str_in "no job" ind) indicators
    then recommendations ++
           ["Financial hardship indicated - consider compassionate collection approach"]
    else recommendations in
  let recommendations :=
    if any_indicator
         (fun ind => Py.str_in "lawyer" ind || Py.str_in "court" ind
                     || Py.str_in "case" ind) indicators
    then recommendations ++
           ["Legal threats detected - document thoroughly and involve legal team"]
    else recommendations in
  recommendations.

Definition _generate_recommendations (risk_level : RiskLevel)
    (indicators : list string) (cooperation_score : Q) : list string :=
  let recommendations := [] in
  let recommendations :=
    match risk_level with
    | CRITICAL =>
        recommendations ++
          [ "Escalate to senior collection specialist immediately";
            "Consider legal action or external collection agency";
            "Document all interactions thoroughly";
            "Review account for potential disputes or fraud" ]
    | HIGH =>
        recommendations ++
          [ "Schedule follow-up call within 24-48 hours";
            "Offer payment plan options";
            "Consider supervisor review of account";
            "Document customer concerns and objections" ]
    | MEDIUM =>
        recommendations ++
          [ "Follow up within 1 week";
            "Send payment reminder via email/SMS";
            "Monitor account closely for changes";
            "Be prepared to offer flexible payment options" ]
    | LOW =>
        recommendations ++
          [ "Standard follow-up schedule";
            "Customer appears cooperative";
            "Continue with normal collection process";
            "Consider this a positive interaction" ]
    end in
  let recommendations :=
    if Py.Qltb cooperation_score 30
    then recommendations ++
           ["Customer showed low cooperation - consider different approach"]
    else if Py.Qgtb cooperation_score 70
    then recommendations ++
           ["Customer was cooperative - maintain positive relationship"]
    else recommendations in
  let hinglish_recommendations := _get_hinglish_recommendations indicators in
  recommendations ++ hinglish_recommendations.

(** ** [analyze_transcript]

    [transcript_data] is the decoded document and [now] the formatted clock
    reading. *)
Definition analyze_transcript (transcript_file : string) (now : string)
    (transcript_data : transcript) : RiskAnalysis :=
  let '(user_messages, assistant_messages) := separate_messages transcript_data in
  let sentiment_score := _analyze_sentiment user_messages in
  let cooperation_score := _analyze_cooperation user_messages in
  let keyword_risk_score := _analyze_keywords user_messages in
  let conversation_flow_score :=
    _analyze_conversation_flow user_messages assistant_messages in
  let risk_score :=
    _calculate_risk_score sentiment_score cooperation_score
      keyword_risk_score conversation_flow_score in
  let risk_level := _determine_risk_level risk_score in
  let key_indicators := _identify_key_indicators user_messages in
  let recommendations :=
    _generate_recommendations risk_level key_indicators cooperation_score in
  {| risk_level := risk_level;
     risk_score := risk_score;
     sentiment_score := sentiment_score;
     cooperation_score := cooperation_score;
     key_indicators := key_indicators;
     recommendations := recommendations;
     transcript_file := transcript_file;
     analysis_timestamp := now |}.

(** ** [generate_report]

    The formatting of a float with a fixed number of decimals and
    [os.path.basename] are taken as given; the clock reading is an
    argument, and the file that the method writes when [output_file] is
    given is returned beside the text. *)

(** [str(n)] for an integer. *)
Definition str_of_int (n : Z) : string := NilZero.string_of_int (Z.to_int n).

(** [s * n]. *)
Fixpoint str_times (s : string) (n : nat) : string :=
  match n with
  | O => ""
  | S n' => (s ++ str_times s n')%string
  end.

(** The line feed. *)
Definition LF : string := String (ascii_of_nat 10) "".

Definition RiskLevel_eqb (a b : RiskLevel) : bool :=
  match a, b with
  | LOW, LOW | MEDIUM, MEDIUM | HIGH, HIGH | CRITICAL, CRITICAL => true
  | _, _ => false
  end.

(** [for level in RiskLevel]: the members in the order of their
    definition. *)
Definition RiskLevel_members : list RiskLevel := [LOW; MEDIUM; HIGH; CRITICAL].

(** The dictionary [risk_counts], which has the four levels as its keys
    from its creation on: a total map. [counts_incr d k] is
    [d[k] += 1]. *)
Definition counts_init : RiskLevel -> Z := fun _ => 0.

Definition counts_incr (d : RiskLevel -> Z) (k : RiskLevel) : RiskLevel -> Z :=
  fun level => if RiskLevel_eqb level k then d level + 1 else d level.

(** The loop that fills [risk_counts] and [total_risk_score]. *)
Definition tally_step (st : (RiskLevel -> Z) * Q) (analysis : RiskAnalysis)
  : (RiskLevel -> Z) * Q :=
  let '(risk_counts, total_risk_score) := st in
  (counts_incr risk_counts (risk_level analysis),
   (total_risk_score + risk_score analysis)%Q).

Definition report_tally (analyses : list RiskAnalysis) : (RiskLevel -> Z) * Q :=
  fold_left tally_step analyses (counts_init, 0%Q).

(** [(count / len(analyses)) * 100]. *)
Definition percentage_of (count : Z) (analyses : list RiskAnalysis) : Q :=
  (inject_Z count / inject_Z (Py.len analyses) * 100)%Q.

(** [sorted(l, key=key, reverse=True)]: a stable sort by decreasing key.
    The elements are inserted from the last to the first, each one before
    the first element whose key is not greater than its own. *)
Fixpoint insert_desc {A : Type} (key : A -> Q) (x : A) (l : list A) : list A :=
  match l with
  | [] => [x]
  | y :: rest =>
      if Py.Qltb (key x) (key y) then y :: insert_desc key x rest
      else x :: l
  end.

Definition sorted_desc {A : Type} (key : A -> Q) (l : list A) : list A :=
  fold_right (insert_desc key) [] l.

Section Report.

Variable format_float : nat -> Q -> string.
Variable basename : string -> string.

(** The lines of the block of one analysis. *)
Definition analysis_block (analysis : RiskAnalysis) : list string :=
  let report := [] in
  let report := report ++ [(LF ++ "File: " ++ basename (transcript_file analysis))%string] in
  let report :=
    report ++ [("Risk Level: " ++ RiskLevel_value (risk_level analysis))%string] in
  let report :=
    report ++ [("Risk Score: " ++ format_float 1 (risk_score analysis) ++ "/100")%string] in
  let report :=
    report ++ [("Sentiment: " ++ format_float 2 (sentiment_score analysis))%string] in
  let report :=
    report ++ [("Cooperation: " ++ format_float 1 (cooperation_score analysis) ++ "%")%string] in
  let report :=
    match key_indicators analysis with
    | [] => report
    | _ =>
        (report ++ ["Key Indicators:"])
        ++ map (fun indicator => ("  • " ++ indicator)%string)
               (key_indicators analysis)
    end in
  let report :=
    match recommendations analysis with
    | [] => report
    | _ =>
        (report ++ ["Recommendations:"])
        ++ map (fun rec => ("  • " ++ rec)%string) (recommendations analysis)
    end in
  report ++ [str_times "-" 40].

(** The text of the report and, when [output_file] is given and not
    empty, the file written: its name and its content. *)
Definition generate_report (now : string) (analyses : list RiskAnalysis)
    (output_file : option string) : string * option (string * string) :=
  match analyses with
  | [] => ("No analyses to report", None)
  | _ =>
      let report :=
        [ str_times "=" 60; "CUSTOMER RISK ANALYSIS REPORT"; str_times "=" 60;
          ("Generated: " ++ now)%string;
          ("Total Transcripts Analyzed: " ++ str_of_int (Py.len analyses))%string;
          "" ] in
      let '(risk_counts, total_risk_score) := report_tally analyses in
      let avg_risk_score := (total_risk_score / inject_Z (Py.len analyses))%Q in
      let report := report ++ ["SUMMARY STATISTICS:"; str_times "-" 20] in
      let report :=
        report ++
        map (fun level =>
               let count := risk_counts level in
               let percentage := percentage_of count analyses in
               (RiskLevel_value level ++ " Risk: " ++ str_of_int count ++ " ("
                ++ format_float 1 percentage ++ "%)")%string)
            RiskLevel_members in
      let report :=
        report ++
        [ ("Average Risk Score: " ++ format_float 1 avg_risk_score ++ "/100")%string;
          ""; "INDIVIDUAL ANALYSES:"; str_times "-" 20 ] in
      let report :=
        report ++ flat_map analysis_block (sorted_desc risk_score analyses) in
      let report_text := Py.join LF report in
      match output_file with
      | Some name =>
          if String.eqb name "" then (report_text, None)
          else (report_text, Some (name, report_text))
      | None => (report_text, None)
      end
  end.

End Report.

(** ** Reference definitions, written from the specification

    The definitions of this section follow the wording of the
    specification; the theorems below compare them with the code. *)

(** [clip(x, lo, hi)]. *)
Definition clip (x lo hi : Q) : Q :=
  if Py.Qltb x lo then lo else if Py.Qltb hi x then hi else x.

(** The aggregate of section 4.3. *)
Definition spec_risk_score (sentiment_score cooperation_score keyword_risk flow_risk : Q)
  : Q :=
  let sentiment_risk := Qmax 0 ((1 - sentiment_score) * 50) in
  let cooperation_risk := (100 - cooperation_score)%Q in
  clip (0.25 * sentiment_risk + 0.35 * cooperation_risk +
        0.30 * keyword_risk + 0.10 * flow_risk)%Q 0 100.

(** The order Low < Medium < High < Critical. *)
Definition RiskLevel_rank (l : RiskLevel) : nat :=
  match l with LOW => 0 | MEDIUM => 1 | HIGH => 2 | CRITICAL => 3 end.

(** The number of entries of the list [words] that occur in [text]. *)
Definition entries_present (words : list string) (text : string) : Z :=
  Z.of_nat (List.length (filter (fun w => Py.str_in w text) words)).

(** The number of distinct strings of [words] that occur in [text]: the
    table read as a set. *)
Definition distinct_present (words : list string) (text : string) : Z :=
  Z.of_nat (List.length
              (nodup string_dec (filter (fun w => Py.str_in w text) words))).

(** The sum of a list of integers. *)
Definition total_of (l : list Z) : Z := fold_right Z.add 0 l.

(** The keyword score of section 4.2 for a given way [count] of counting
    the keywords of a table that are present in the customer text. *)
Definition keyword_risk_of (count : list string -> string -> Z)
    (user_messages : list user_message) : Q :=
  let text := all_content_of user_messages in
  let high_count := count high_risk_keywords text in
  let medium_count := count medium_risk_keywords text in
  let low_count := count low_risk_keywords text in
  clip (inject_Z (30 * high_count + 15 * medium_count - 10 * low_count)) 0 100.

(** The keyword score as the specification words it: distinct keywords,
    each table read as a set. *)
Definition spec_keyword_risk : list user_message -> Q :=
  keyword_risk_of distinct_present.

(** Points and total of the cooperation estimate for a given way [count] of
    counting the indicators of a table matched in one turn. *)
Definition cooperation_points_of (count : list string -> string -> Z)
    (user_messages : list user_message) : Z :=
  total_of (map (fun msg => count cooperation_indicators (content msg)
                            - count non_cooperation_indicators (content msg))
                user_messages).

Definition total_indicators_of (count : list string -> string -> Z)
    (user_messages : list user_message) : Z :=
  total_of (map (fun msg => count cooperation_indicators (content msg)
                            + count non_cooperation_indicators (content msg))
                user_messages).

Definition cooperation_of (count : list string -> string -> Z)
    (user_messages : list user_message) : Q :=
  let points := cooperation_points_of count user_messages in
  let total := total_indicators_of count user_messages in
  if total =? 0 then 50%Q
  else clip (50 + 50 * (inject_Z points / inject_Z total))%Q 0 100.

(** The cooperation estimate as the specification words it: indicators are
    members of a set, none contributes twice in a turn. *)
Definition spec_cooperation : list user_message -> Q :=
  cooperation_of distinct_present.

(** A customer turn with the given text, not interrupted, confidence 1. *)
Definition turn (text : string) : user_message :=
  {| content := text; interrupted := false; confidence := 1%Q |}.

(** The customer's and the agent's turns of a transcript, as
    [analyze_transcript] separates them. *)
Definition customer_turns (transcript_data : transcript) : list user_message :=
  fst (separate_messages transcript_data).

Definition agent_turns (transcript_data : transcript) : list assistant_message :=
  snd (separate_messages transcript_data).

(** No item of the document is a message of role "user". *)
Definition no_customer_turn (transcript_data : transcript) : Prop :=
  forall it : item,
    In it (get (items transcript_data) []) ->
    ~ (item_type it = Some "message" /\ item_role it = Some "user").

(** The items of a document that do not carry the role "assistant". *)
Definition without_assistant_items (its : list item) : list item :=
  filter (fun it => negb (field_is (item_role it) "assistant")) its.

(** The dominant language of a turn, section 4.2. *)
Inductive dominant : Type := Hindi | English | Mixed.

Definition classify_turn (msg : user_message) : dominant :=
  let hindi := entries_present hindi_indicators (content msg) in
  let english := entries_present english_indicators (content msg) in
  if english <? hindi then Hindi
  else if hindi <? english then English
  else Mixed.

(** A transition between a Hindi turn and an English turn, either way. *)
Definition is_switch (a b : dominant) : bool :=
  match a, b with
  | Hindi, English | English, Hindi => true
  | _, _ => false
  end.

(** The number of adjacent pairs of turns that are a switch. *)
Fixpoint switch_pairs (l : list dominant) : Z :=
  match l with
  | a :: (b :: _) as rest => (if is_switch a b then 1 else 0) + switch_pairs rest
  | _ => 0
  end.

(** The evidence of section 4.4, in the order in which it is generated. *)
Definition matched (render : string -> string) (text : string)
    (xs : list string) : list string :=
  map render (filter (fun x => Py.str_in x text) xs).

Definition high_risk_evidence (text : string) : list string :=
  matched (fun k => "High risk keyword: '" ++ _translate_keyword_for_report k ++ "'")%string
    text high_risk_keywords.

Definition medium_risk_evidence (text : string) : list string :=
  matched (fun k => "Medium risk keyword: '" ++ _translate_keyword_for_report k ++ "'")%string
    text medium_risk_keywords.

Definition evasive_evidence (text : string) : list string :=
  matched (fun p => "Evasive Hinglish phrase: '" ++ p ++ "'")%string
    text evasive_phrases.

Definition hostile_evidence (text : string) : list string :=
  matched (fun p => "Hostile Hinglish phrase: '" ++ p ++ "'")%string
    text hostile_phrases.

Definition distress_evidence (text : string) : list string :=
  matched (fun p => "Financial distress indicator: '" ++ p ++ "'")%string
    text distress_phrases.

Definition structural_flags (user_messages : list user_message) : list string :=
  match user_messages with
  | [] => [avoidance_flag]
  | [only] =>
      if Py.len (Py.split (content only)) <=? 2 then [disengagement_flag] else []
  | _ => []
  end.

Definition switching_evidence (user_messages : list user_message) : list string :=
  if _detect_language_switching user_messages then [switching_flag] else [].

Definition evidence_sequence (user_messages : list user_message) : list string :=
  let text := all_content_of user_messages in
  high_risk_evidence text ++ medium_risk_evidence text
  ++ (evasive_evidence text ++ hostile_evidence text ++ distress_evidence text)
  ++ structural_flags user_messages
  ++ switching_evidence user_messages.

(** ** Reference definitions for the further properties *)

(** The sum of a list of rationals. *)
Definition Qsum (l : list Q) : Q := fold_right Qplus 0%Q l.

(** A turn counts for the sentiment when it matches a positive or a
    negative word. *)
Definition has_signal (msg : user_message) : bool :=
  (0 <? entries_present positive_words (content msg))
  || (0 <? entries_present negative_words (content msg)).

(** The sentiment of one turn that counts. *)
Definition turn_sentiment (msg : user_message) : Q :=
  (inject_Z (entries_present positive_words (content msg)
             - entries_present negative_words (content msg))
   / inject_Z (entries_present positive_words (content msg)
               + entries_present negative_words (content msg)))%Q.

(** The mean of the sentiments of the turns that count. *)
Definition mean_sentiment (user_messages : list user_message) : Q :=
  let scored := filter has_signal user_messages in
  (Qsum (map turn_sentiment scored) / inject_Z (Z.max (Py.len scored) 1))%Q.

(** The three counts read by [_analyze_conversation_flow]. *)
Definition interruptions (user_messages : list user_message) : Z :=
  Py.len (filter (fun msg => interrupted msg) user_messages).

Definition short_turns (user_messages : list user_message) : Z :=
  Py.len (filter (fun msg => Py.len (Py.split (content msg)) <=? 2) user_messages).

Definition unclear_turns (user_messages : list user_message) : Z :=
  Py.len (filter (fun msg => Py.Qltb (confidence msg) 0.7) user_messages).

(** The flow signal in whole numbers: 20 for more than two interruptions,
    15 when more than seven tenths of the turns are short, 10 when more
    than half of them have a confidence below 0.7. *)
Definition flow_points (user_messages : list user_message) : Z :=
  let n := Py.len user_messages in
  (if 2 <? interruptions user_messages then 20 else 0)
  + (if 7 * n <? 10 * short_turns user_messages then 15 else 0)
  + (if n <? 2 * unclear_turns user_messages then 10 else 0).

(** The weighted sum of section 4.3 without any clipping. *)
Definition weighted_risk (sentiment cooperation keyword_risk flow_risk : Q) : Q :=
  (0.25 * ((1 - sentiment) * 50) + 0.35 * (100 - cooperation)
   + 0.30 * keyword_risk + 0.10 * flow_risk)%Q.

(** The evidence drawn from the keyword tables and the phrase lists, before
    any flag. *)
Definition keyword_and_pattern_evidence (user_messages : list user_message)
  : list string :=
  let text := all_content_of user_messages in
  high_risk_evidence text ++ medium_risk_evidence text
  ++ (evasive_evidence text ++ hostile_evidence text ++ distress_evidence text).

(** A string all of whose characters satisfy [p]. *)
Fixpoint all_chars (p : ascii -> bool) (s : string) : bool :=
  match s with
  | EmptyString => true
  | String c rest => p c && all_chars p rest
  end.

(** An ASCII capital letter. *)
Definition is_capital (c : ascii) : bool :=
  let n := nat_of_ascii c in ((65 <=? n) && (n <=? 90))%nat.

(** A text without ASCII capital letters. *)
Definition no_capitals (s : string) : bool :=
  all_chars (fun c => negb (is_capital c)) s.

(** The four lines that [_get_hinglish_recommendations] attaches to the
    kinds of evidence. *)
Definition evasive_advice : string :=
  "Customer using evasive Hinglish - try direct Hindi approach".
Definition hostile_advice : string :=
  "Customer showing hostility in Hinglish - escalate to Hindi-speaking senior agent".
Definition distress_advice : string :=
  "Financial distress detected - offer EMI/installment options in Hindi".
Definition switching_advice : string :=
  "Customer switching languages - may indicate discomfort, use consistent Hindi".

(** The customer and the agent message built from one item. *)
Definition customer_message (it : item) : user_message :=
  {| content := Py.lower (Py.join " " (get (item_content it) []));
     interrupted := get (item_interrupted it) false;
     confidence := get (item_transcript_confidence it) 1%Q |}.

Definition agent_message (it : item) : assistant_message :=
  {| a_content := Py.lower (Py.join " " (get (item_content it) []));
     a_interrupted := get (item_interrupted it) false |}.

Definition is_customer_item (it : item) : bool :=
  field_is (item_type it) "message" && field_is (item_role it) "user".

Definition is_agent_item (it : item) : bool :=
  field_is (item_type it) "message" && field_is (item_role it) "assistant".

(** A text made of ASCII characters only. *)
Definition is_ascii_text (s : string) : bool :=
  all_chars (fun c => (nat_of_ascii c <? 128)%nat) s.

(** The number of analyses at a level. *)
Definition at_level (level : RiskLevel) (analyses : list RiskAnalysis) : Z :=
  Py.len (filter (fun a => RiskLevel_eqb (risk_level a) level) analyses).

(** Being in decreasing order of a key. *)
Definition decreasing {A : Type} (key : A -> Q) (l : list A) : Prop :=
  StronglySorted (fun a b => (key b <= key a)%Q) l.

(** The text of the block of one analysis. *)
Definition block_text (format_float : nat -> Q -> string)
    (basename : string -> string) (analysis : RiskAnalysis) : string :=
  Py.join LF (analysis_block format_float basename analysis).

(** [x] occurs in [text] and [y] occurs after it. *)
Definition shown_before (x y text : string) : Prop :=
  exists pre mid post, text = (pre ++ x ++ mid ++ y ++ post)%string.

(** [a] stands in the list at a place before a place of [b]. *)
Inductive occurs_before {A : Type} (a b : A) : list A -> Prop :=
  | ob_here : forall l, In b l -> occurs_before a b (a :: l)
  | ob_later : forall x l, occurs_before a b l -> occurs_before a b (x :: l).

(** Sample inputs. *)

(** A customer who refuses, in one turn. *)
Definition refusing_transcript : transcript :=
  {| items := Some [ {| item_type := Some "message";
                        item_role := Some "user";
                        item_content :=
                          Some ["No, I can't pay,"; "no money, lost job.";
                                "Call my lawyer"];
                        item_interrupted := None;
                        item_transcript_confidence := None |} ] |}.

(** A customer who alternates between English and Hindi. *)
Definition customer_says (words : string) : item :=
  {| item_type := Some "message"; item_role := Some "user";
     item_content := Some [words]; item_interrupted := None;
     item_transcript_confidence := None |}.

Definition switching_transcript : transcript :=
  {| items := Some [ customer_says "The rent is due";
                     customer_says "Paisa nahi hai";
                     customer_says "I will not pay" ] |}.

(** The same turns with the marks reset. *)
Definition text_only (user_messages : list user_message) : list user_message :=
  map (fun msg => turn (content msg)) user_messages.

(** A rendering of floats and of paths for the examples: the fraction
    as it is, and the path as it is. *)
Definition plain_float (digits : nat) (x : Q) : string :=
  (str_of_int (Qnum x) ++ "/" ++ str_of_int (Zpos (Qden x)))%string.

(** * Properties *)

(** ** Arithmetic helpers *)

Lemma Qltb_lt (a b : Q) : Py.Qltb a b = true <-> (a < b)%Q.
Proof.
  unfold Py.Qltb. rewrite negb_true_iff. split.
  - intros Hle. apply Qnot_le_lt. intros Hba.
    apply Qle_bool_iff in Hba. congruence.
  - intros Hlt. destruct (Qle_bool b a) eqn:Hle; [|reflexivity].
    apply Qle_bool_iff in Hle. exfalso. apply (Qlt_not_le _ _ Hlt Hle).
Qed.

Lemma Qltb_ge (a b : Q) : Py.Qltb a b = false <-> (b <= a)%Q.
Proof.
  unfold Py.Qltb. rewrite negb_false_iff. apply Qle_bool_iff.
Qed.

Lemma Qle_bool_false (a b : Q) : Qle_bool a b = false <-> (b < a)%Q.
Proof.
  rewrite <- Qltb_lt. unfold Py.Qltb. rewrite negb_true_iff. reflexivity.
Qed.

(** [clip] agrees with the nesting of [min] and [max] that the code uses,
    in both orders, when the bounds are ordered. *)
Lemma clip_max_min (x lo hi : Q) :
  (lo <= hi)%Q -> (Qmax lo (Qmin hi x) == clip x lo hi)%Q.
Proof.
  intros Hb. unfold clip.
  destruct (Py.Qltb x lo) eqn:E1.
  - apply Qltb_lt in E1. apply Q.max_l.
    apply Qle_trans with x; [apply Q.le_min_r | apply Qlt_le_weak, E1].
  - apply Qltb_ge in E1. destruct (Py.Qltb hi x) eqn:E2.
    + apply Qltb_lt in E2. rewrite Q.min_l by (apply Qlt_le_weak, E2).
      apply Q.max_r, Hb.
    + apply Qltb_ge in E2. rewrite Q.min_r by exact E2. apply Q.max_r, E1.
Qed.

Lemma clip_min_max (x lo hi : Q) :
  (lo <= hi)%Q -> (Qmin hi (Qmax lo x) == clip x lo hi)%Q.
Proof.
  intros Hb. unfold clip.
  destruct (Py.Qltb x lo) eqn:E1.
  - apply Qltb_lt in E1. rewrite Q.max_l by (apply Qlt_le_weak, E1).
    apply Q.min_r, Hb.
  - apply Qltb_ge in E1. rewrite Q.max_r by exact E1.
    destruct (Py.Qltb hi x) eqn:E2.
    + apply Qltb_lt in E2. apply Q.min_l, Qlt_le_weak, E2.
    + apply Qltb_ge in E2. apply Q.min_r, E2.
Qed.

Lemma clip_compat (x y lo hi : Q) :
  (x == y)%Q -> (clip x lo hi == clip y lo hi)%Q.
Proof.
  intros Hxy. unfold clip, Py.Qltb. rewrite !Hxy.
  destruct (Qle_bool lo y); [|reflexivity].
  destruct (Qle_bool y hi); [exact Hxy | reflexivity].
Qed.

Lemma clip_bounds (x lo hi : Q) : (lo <= hi)%Q -> (lo <= clip x lo hi <= hi)%Q.
Proof.
  intros Hb. unfold clip.
  destruct (Py.Qltb x lo) eqn:E1; [split; [apply Qle_refl | exact Hb]|].
  apply Qltb_ge in E1.
  destruct (Py.Qltb hi x) eqn:E2; [split; [exact Hb | apply Qle_refl]|].
  apply Qltb_ge in E2. split; assumption.
Qed.

Lemma clip_inject_Z (z : Z) :
  (inject_Z (Z.max 0 (Z.min 100 z)) == clip (inject_Z z) 0 100)%Q.
Proof.
  unfold clip.
  destruct (Py.Qltb (inject_Z z) 0) eqn:E1.
  - apply Qltb_lt in E1. unfold Qlt in E1. simpl in E1.
    replace (Z.max 0 (Z.min 100 z)) with 0 by lia. reflexivity.
  - apply Qltb_ge in E1. unfold Qle in E1. simpl in E1.
    destruct (Py.Qltb 100 (inject_Z z)) eqn:E2.
    + apply Qltb_lt in E2. unfold Qlt in E2. simpl in E2.
      replace (Z.max 0 (Z.min 100 z)) with 100 by lia. reflexivity.
    + apply Qltb_ge in E2. unfold Qle in E2. simpl in E2.
      replace (Z.max 0 (Z.min 100 z)) with z by lia. reflexivity.
Qed.

(** A quotient of integers [a / b] with [|a| <= b] and [0 < b] lies in
    [[-1, 1]]. *)
Lemma ratio_in_unit (a b : Z) :
  0 < b -> - b <= a <= b ->
  (-1 <= inject_Z a / inject_Z b <= 1)%Q.
Proof.
  intros Hb [Hlo Hhi].
  assert (Hpos : (0 < inject_Z b)%Q) by (unfold Qlt; simpl; lia).
  split.
  - apply Qle_shift_div_l; [exact Hpos|].
    change (-1)%Q with (inject_Z (-1)).
    rewrite <- inject_Z_mult, <- Zle_Qle. lia.
  - apply Qle_shift_div_r; [exact Hpos|].
    change 1%Q with (inject_Z 1).
    rewrite <- inject_Z_mult, <- Zle_Qle. lia.
Qed.

(** ** Counting *)

Lemma sum_from (l : list Z) (a : Z) : fold_left Z.add l a = a + Py.sum l.
Proof.
  unfold Py.sum. revert a. induction l as [|x l IH]; intros a; simpl.
  - lia.
  - rewrite IH, (IH x). lia.
Qed.

Lemma sum_ones {A : Type} (l : list A) :
  Py.sum (map (fun _ => 1) l) = Z.of_nat (List.length l).
Proof.
  induction l as [|x l IH].
  - reflexivity.
  - unfold Py.sum. cbn [map fold_left]. rewrite sum_from, IH.
    cbn [List.length]. lia.
Qed.

Lemma count_in_entries (words : list string) (text : string) :
  count_in words text = entries_present words text.
Proof. unfold count_in, entries_present. apply sum_ones. Qed.

Lemma entries_present_nonneg (words : list string) (text : string) :
  0 <= entries_present words text.
Proof. unfold entries_present. lia. Qed.

Lemma entries_present_cons (w : string) (words : list string) (text : string) :
  entries_present (w :: words) text =
  (if Py.str_in w text then 1 else 0) + entries_present words text.
Proof.
  unfold entries_present. cbn [filter].
  destruct (Py.str_in w text); cbn [List.length]; lia.
Qed.

(** Read as a set, a table without repetition has as many members present
    as it has entries present. *)
Lemma distinct_present_NoDup (words : list string) (text : string) :
  NoDup words -> distinct_present words text = entries_present words text.
Proof.
  intros Hnd. unfold distinct_present, entries_present.
  rewrite nodup_fixed_point; [reflexivity|].
  apply NoDup_filter, Hnd.
Qed.

Lemma distinct_present_le (words : list string) (text : string) :
  distinct_present words text <= entries_present words text.
Proof.
  unfold distinct_present, entries_present.
  apply inj_le.
  set (l := filter _ words). clearbody l.
  induction l as [|x l IH]; cbn [nodup List.length]; [lia|].
  destruct (in_dec string_dec x l); cbn [List.length]; lia.
Qed.

(** ** The aggregator *)

(** C2. For all four signal values the aggregate is
    [clip(0.25*sentiment_risk + 0.35*cooperation_risk + 0.30*keyword_risk
    + 0.10*flow_risk, 0, 100)] with
    [sentiment_risk = max(0, (1 - sentiment_score) * 50)] and
    [cooperation_risk = 100 - cooperation_score]; it depends on nothing
    else. *)
Theorem calculate_risk_score_formula :
  forall sentiment_score cooperation_score keyword_risk flow_risk : Q,
    (_calculate_risk_score sentiment_score cooperation_score keyword_risk flow_risk
     == spec_risk_score sentiment_score cooperation_score keyword_risk flow_risk)%Q.
Proof.
  intros s c k f. unfold _calculate_risk_score, spec_risk_score.
  cbv zeta. rewrite clip_min_max by (unfold Qle; simpl; lia).
  apply clip_compat. ring.
Qed.

(** The aggregate respects equality of rationals: equal signals give equal
    scores. *)
Lemma calculate_risk_score_compat :
  forall s s' c c' k k' f f' : Q,
    (s == s')%Q -> (c == c')%Q -> (k == k')%Q -> (f == f')%Q ->
    (_calculate_risk_score s c k f == _calculate_risk_score s' c' k' f')%Q.
Proof.
  intros s s' c c' k k' f f' Hs Hc Hk Hf. unfold _calculate_risk_score.
  cbv zeta. now rewrite Hs, Hc, Hk, Hf.
Qed.

Lemma calculate_risk_score_bounds (s c k f : Q) :
  (0 <= _calculate_risk_score s c k f <= 100)%Q.
Proof.
  unfold _calculate_risk_score. cbv zeta. split.
  - apply Q.min_glb; [unfold Qle; simpl; lia | apply Q.le_max_l].
  - apply Q.le_min_l.
Qed.

(** ** The classification *)

Lemma determine_risk_level_cases (s : Q) :
  (_determine_risk_level s = CRITICAL /\ 75 <= s)%Q \/
  (_determine_risk_level s = HIGH /\ 50 <= s /\ s < 75)%Q \/
  (_determine_risk_level s = MEDIUM /\ 25 <= s /\ s < 50)%Q \/
  (_determine_risk_level s = LOW /\ s < 25)%Q.
Proof.
  unfold _determine_risk_level.
  destruct (Qle_bool 75 s) eqn:E75.
  { left. split; [reflexivity | now apply Qle_bool_iff]. }
  apply Qle_bool_false in E75.
  destruct (Qle_bool 50 s) eqn:E50.
  { right; left. repeat split; [now apply Qle_bool_iff | exact E75]. }
  apply Qle_bool_false in E50.
  destruct (Qle_bool 25 s) eqn:E25.
  { right; right; left. repeat split; [now apply Qle_bool_iff | exact E50]. }
  apply Qle_bool_false in E25.
  right; right; right. split; [reflexivity | exact E25].
Qed.

(** C3. The level is Critical iff [s >= 75], High iff [50 <= s < 75],
    Medium iff [25 <= s < 50] and Low iff [s < 25]; the lower boundaries
    25, 50 and 75 belong to the upper class; the level is a monotone
    function of the score. *)
Theorem determine_risk_level_thresholds :
  (forall s : Q,
     (_determine_risk_level s = CRITICAL <-> 75 <= s)%Q /\
     (_determine_risk_level s = HIGH <-> 50 <= s /\ s < 75)%Q /\
     (_determine_risk_level s = MEDIUM <-> 25 <= s /\ s < 50)%Q /\
     (_determine_risk_level s = LOW <-> s < 25)%Q) /\
  (_determine_risk_level 25 = MEDIUM /\
   _determine_risk_level 50 = HIGH /\
   _determine_risk_level 75 = CRITICAL) /\
  (forall s1 s2 : Q,
     (s1 <= s2)%Q ->
     (RiskLevel_rank (_determine_risk_level s1)
      <= RiskLevel_rank (_determine_risk_level s2))%nat).
Proof.
  split; [|split].
  - intros s.
    destruct (determine_risk_level_cases s)
      as [[-> H]|[[-> [H1 H2]]|[[-> [H1 H2]]|[-> H]]]];
      repeat split; intros;
        intuition (try discriminate; try reflexivity; try (exfalso; lra)).
  - repeat split; reflexivity.
  - intros s1 s2 Hle.
    destruct (determine_risk_level_cases s1)
      as [[-> H]|[[-> [H1 H2]]|[[-> [H1 H2]]|[-> H]]]];
      destruct (determine_risk_level_cases s2)
        as [[-> K]|[[-> [K1 K2]]|[[-> [K1 K2]]|[-> K]]]];
      cbn [RiskLevel_rank]; try lia; exfalso; lra.
Qed.

Lemma determine_risk_level_thresholds_witness :
  (RiskLevel_rank (_determine_risk_level 24.999)
   <= RiskLevel_rank (_determine_risk_level 25))%nat.
Proof.
  apply (proj2 (proj2 determine_risk_level_thresholds)).
  unfold Qle; simpl; lia.
Defined.

(** ** The keyword score *)

(** What the code computes: [clip(30*H + 15*M - 10*L, 0, 100)] where [H],
    [M] and [L] run over the entries of the high-, medium- and low-risk
    keyword lists that occur in the customer texts joined by single
    spaces. An entry counts once however often it occurs in the text; a
    keyword entered twice in a list is met twice by the loop. *)
Lemma analyze_keywords_counts_entries :
  forall user_messages : list user_message,
    (_analyze_keywords user_messages
     == keyword_risk_of entries_present user_messages)%Q.
Proof.
  intros [|msg rest].
  - vm_compute. reflexivity.
  - unfold _analyze_keywords, keyword_risk_of. cbv beta iota zeta.
    rewrite !count_in_entries, clip_inject_Z.
    apply clip_compat.
    set (h := entries_present high_risk_keywords _).
    set (m := entries_present medium_risk_keywords _).
    set (l := entries_present low_risk_keywords _).
    replace (h * 30 + m * 15 - l * 10) with (30 * h + 15 * m - 10 * l) by lia.
    reflexivity.
Qed.

(** C4. The code departs from the claim where a keyword is entered twice
    in a table. "bankruptcy" stands twice in the high-risk list: for the
    single customer turn "bankruptcy" the code returns 60, where the
    count of distinct keywords that the claim describes gives 30. *)
Lemma analyze_keywords_not_distinct :
  (_analyze_keywords [turn "bankruptcy"] == 60)%Q /\
  (spec_keyword_risk [turn "bankruptcy"] == 30)%Q /\
  ~ (_analyze_keywords [turn "bankruptcy"]
     == spec_keyword_risk [turn "bankruptcy"])%Q.
Proof.
  split; [|split].
  - vm_compute. reflexivity.
  - vm_compute. reflexivity.
  - vm_compute. intros Heq. discriminate Heq.
Qed.

(** ** The cooperation estimate *)

Lemma cooperation_hits (text : string) (indicators : list string) (p t : Z) :
  fold_left (cooperation_hit text) indicators (p, t)
  = (p + entries_present indicators text, t + entries_present indicators text).
Proof.
  revert p t. induction indicators as [|w ws IH]; intros p t.
  - cbn [fold_left]. unfold entries_present. cbn. f_equal; lia.
  - cbn [fold_left]. rewrite entries_present_cons. unfold cooperation_hit at 2.
    destruct (Py.str_in w text); rewrite IH; f_equal; lia.
Qed.

Lemma non_cooperation_hits (text : string) (indicators : list string) (p t : Z) :
  fold_left (non_cooperation_hit text) indicators (p, t)
  = (p - entries_present indicators text, t + entries_present indicators text).
Proof.
  revert p t. induction indicators as [|w ws IH]; intros p t.
  - cbn [fold_left]. unfold entries_present. cbn. f_equal; lia.
  - cbn [fold_left]. rewrite entries_present_cons.
    unfold non_cooperation_hit at 2.
    destruct (Py.str_in w text); rewrite IH; f_equal; lia.
Qed.

Lemma cooperation_turn_counts (msg : user_message) (p t : Z) :
  cooperation_turn (p, t) msg
  = (p + entries_present cooperation_indicators (content msg)
       - entries_present non_cooperation_indicators (content msg),
     t + entries_present cooperation_indicators (content msg)
       + entries_present non_cooperation_indicators (content msg)).
Proof.
  unfold cooperation_turn.
  rewrite (cooperation_hits (content msg) cooperation_indicators p t).
  apply non_cooperation_hits.
Qed.

(** A loop whose body adds to each of two counters an amount that depends
    on the element alone ends with the two sums added. *)
Lemma additive_loop {A : Type} (step : Z * Z -> A -> Z * Z) (dp dt : A -> Z) :
  (forall p t x, step (p, t) x = (p + dp x, t + dt x)) ->
  forall (l : list A) (p t : Z),
    fold_left step l (p, t) = (p + total_of (map dp l), t + total_of (map dt l)).
Proof.
  intros Hstep. unfold total_of.
  induction l as [|x l IH]; intros p t; cbn [fold_left map fold_right].
  - f_equal; lia.
  - rewrite Hstep, IH. f_equal; lia.
Qed.

Lemma cooperation_loop (user_messages : list user_message) (p t : Z) :
  fold_left cooperation_turn user_messages (p, t)
  = (p + cooperation_points_of entries_present user_messages,
     t + total_indicators_of entries_present user_messages).
Proof.
  unfold cooperation_points_of, total_indicators_of.
  apply additive_loop. intros p' t' msg.
  rewrite cooperation_turn_counts.
  generalize (entries_present cooperation_indicators (content msg)).
  generalize (entries_present non_cooperation_indicators (content msg)).
  intros n c. f_equal; lia.
Qed.

(** What the code computes: each entry of the cooperation list matched in
    a turn adds 1 to the points and 1 to the total, each entry of the
    non-cooperation list matched in a turn takes 1 from the points and adds
    1 to the total; with total 0 (also with no customer turn) the score is
    50, otherwise it is [clip(50 + 50*(points/total), 0, 100)]. An
    indicator entered twice in a list is met twice by the loop. *)
Lemma analyze_cooperation_counts_entries :
  forall user_messages : list user_message,
    fold_left cooperation_turn user_messages (0, 0)
    = (cooperation_points_of entries_present user_messages,
       total_indicators_of entries_present user_messages) /\
    (_analyze_cooperation user_messages
     == cooperation_of entries_present user_messages)%Q.
Proof.
  intros user_messages. split.
  - rewrite cooperation_loop. f_equal; lia.
  - destruct user_messages as [|msg rest]; [reflexivity|].
    unfold _analyze_cooperation, cooperation_of. cbv beta iota zeta.
    rewrite cooperation_loop. rewrite !Z.add_0_l.
    destruct (total_indicators_of entries_present (msg :: rest) =? 0);
      [reflexivity|].
    rewrite clip_max_min by (unfold Qle; simpl; lia).
    apply clip_compat. ring.
Qed.

(** C5. The code departs from the claim where an indicator is entered
    twice in a table. "busy" stands twice in the non-cooperation list: for
    the single customer turn "yes busy" the code has points -1 out of a
    total of 3 and returns 100/3, where the claim, with each indicator
    contributing once in a turn, has points 0 out of 2 and the score
    50. *)
Lemma analyze_cooperation_not_distinct :
  fold_left cooperation_turn [turn "yes busy"] (0, 0) = (-1, 3) /\
  (_analyze_cooperation [turn "yes busy"] == 100 # 3)%Q /\
  (spec_cooperation [turn "yes busy"] == 50)%Q /\
  ~ (_analyze_cooperation [turn "yes busy"]
     == spec_cooperation [turn "yes busy"])%Q.
Proof.
  split; [|split; [|split]].
  - vm_compute. reflexivity.
  - vm_compute. reflexivity.
  - vm_compute. reflexivity.
  - vm_compute. intros Heq. discriminate Heq.
Qed.

Lemma cooperation_bounds (user_messages : list user_message) :
  (0 <= _analyze_cooperation user_messages <= 100)%Q.
Proof.
  unfold _analyze_cooperation.
  destruct user_messages as [|msg rest]; [split; unfold Qle; simpl; lia|].
  destruct (fold_left cooperation_turn (msg :: rest) (0, 0)) as [p t].
  destruct (t =? 0); [split; unfold Qle; simpl; lia|].
  cbv zeta. split.
  - apply Q.le_max_l.
  - apply Q.max_lub; [unfold Qle; simpl; lia | apply Q.le_min_l].
Qed.

(** ** The sentiment estimate *)

(** The loop invariant: the running total lies between minus and plus the
    number of messages counted. *)
Definition sentiment_inv (st : Q * Z) : Prop :=
  0 <= snd st /\ (- inject_Z (snd st) <= fst st <= inject_Z (snd st))%Q.

Lemma sentiment_turn_inv (st : Q * Z) (msg : user_message) :
  sentiment_inv st -> sentiment_inv (sentiment_turn st msg).
Proof.
  destruct st as [t c]. unfold sentiment_inv, sentiment_turn. cbn [fst snd].
  intros [Hc [Hlo Hhi]]. cbv zeta. rewrite !count_in_entries.
  pose proof (entries_present_nonneg positive_words (content msg)) as Hp.
  pose proof (entries_present_nonneg negative_words (content msg)) as Hn.
  set (p := entries_present positive_words (content msg)) in *.
  set (n := entries_present negative_words (content msg)) in *.
  destruct ((0 <? p) || (0 <? n)) eqn:Hany; cbn [fst snd].
  - apply orb_true_iff in Hany. rewrite !Z.ltb_lt in Hany.
    assert (Hr : (-1 <= inject_Z (p - n) / inject_Z (Z.max (p + n) 1) <= 1)%Q)
      by (apply ratio_in_unit; lia).
    destruct Hr as [Hr1 Hr2].
    split; [lia|]. rewrite inject_Z_plus.
    change (inject_Z 1) with 1%Q. split; lra.
  - split; [exact Hc | split; assumption].
Qed.

Lemma sentiment_loop_inv (user_messages : list user_message) (st : Q * Z) :
  sentiment_inv st -> sentiment_inv (fold_left sentiment_turn user_messages st).
Proof.
  revert st. induction user_messages as [|msg rest IH]; intros st Hst.
  - exact Hst.
  - cbn [fold_left]. apply IH, sentiment_turn_inv, Hst.
Qed.

Lemma sentiment_bounds (user_messages : list user_message) :
  (-1 <= _analyze_sentiment user_messages <= 1)%Q.
Proof.
  unfold _analyze_sentiment.
  destruct user_messages as [|msg rest]; [split; unfold Qle; simpl; lia|].
  pose proof (sentiment_loop_inv (msg :: rest) (0%Q, 0)) as Hinv.
  destruct (fold_left sentiment_turn (msg :: rest) (0%Q, 0)) as [t c].
  unfold sentiment_inv in Hinv. cbn [fst snd] in Hinv.
  destruct Hinv as [Hc [Hlo Hhi]].
  { cbn. split; [lia | split; unfold Qle; simpl; lia]. }
  assert (Hk : (inject_Z c <= inject_Z (Z.max c 1))%Q)
    by (rewrite <- Zle_Qle; lia).
  assert (Hpos : (0 < inject_Z (Z.max c 1))%Q)
    by (change 0%Q with (inject_Z 0); rewrite <- Zlt_Qlt; lia).
  split.
  - apply Qle_shift_div_l; [exact Hpos | lra].
  - apply Qle_shift_div_r; [exact Hpos | lra].
Qed.

(** ** The language-switch detector *)

(** The tag the code writes for a dominant language. *)
Definition tag_of (d : dominant) : string :=
  match d with Hindi => "H" | English => "E" | Mixed => "M" end.

Lemma language_tag_classify (msg : user_message) :
  language_tag msg = tag_of (classify_turn msg).
Proof.
  unfold language_tag, classify_turn. cbv zeta. rewrite !count_in_entries.
  destruct (_ <? _); [reflexivity|]. destruct (_ <? _); reflexivity.
Qed.

Lemma append_each {A B : Type} (f : A -> B) (l : list A) (acc : list B) :
  fold_left (fun out x => out ++ [f x]) l acc = acc ++ map f l.
Proof.
  revert acc. induction l as [|x l IH]; intros acc; cbn [fold_left map].
  - now rewrite app_nil_r.
  - rewrite IH, <- app_assoc. reflexivity.
Qed.

(** The test of the loop body of [count_switches]. *)
Definition tags_switch (a b : string) : bool :=
  negb (String.eqb a b) && negb (String.eqb a "M") && negb (String.eqb b "M").

Definition switch_step (l : list string) (switches : Z) (i : nat) : Z :=
  if tags_switch (nth i l "") (nth (i + 1) l "") then switches + 1 else switches.

Lemma count_switches_unfold (l : list string) :
  count_switches l = fold_left (switch_step l) (seq 0 (List.length l - 1)) 0.
Proof. reflexivity. Qed.

Lemma switch_step_shift (x : string) (l : list string) (idx : list nat) (acc : Z) :
  fold_left (switch_step (x :: l)) (map S idx) acc = fold_left (switch_step l) idx acc.
Proof.
  revert acc. induction idx as [|i idx IH]; intros acc; cbn [map fold_left].
  - reflexivity.
  - rewrite IH. reflexivity.
Qed.

Lemma switch_step_from (l : list string) (idx : list nat) (acc : Z) :
  fold_left (switch_step l) idx acc = acc + fold_left (switch_step l) idx 0.
Proof.
  revert acc. induction idx as [|i idx IH]; intros acc; cbn [fold_left].
  - lia.
  - rewrite IH, (IH (switch_step l 0 i)). unfold switch_step.
    destruct (tags_switch _ _); lia.
Qed.

Lemma count_switches_cons (a b : string) (rest : list string) :
  count_switches (a :: b :: rest)
  = (if tags_switch a b then 1 else 0) + count_switches (b :: rest).
Proof.
  rewrite !count_switches_unfold. cbn [List.length Nat.sub].
  rewrite Nat.sub_0_r. cbn [seq fold_left].
  rewrite <- seq_shift, switch_step_shift, switch_step_from.
  unfold switch_step at 1. cbn [nth Nat.add].
  destruct (tags_switch a b); reflexivity.
Qed.

Lemma tags_switch_tag_of (a b : dominant) :
  tags_switch (tag_of a) (tag_of b) = is_switch a b.
Proof. destruct a, b; reflexivity. Qed.

Lemma count_switches_pairs (l : list dominant) :
  count_switches (map tag_of l) = switch_pairs l.
Proof.
  induction l as [|a [|b rest] IH]; try reflexivity.
  cbn [map] in *. rewrite count_switches_cons, IH, tags_switch_tag_of.
  reflexivity.
Qed.

Lemma detect_language_switching_eq (user_messages : list user_message) :
  _detect_language_switching user_messages
  = if Py.len user_messages <? 3 then false
    else Py.Qgtb (inject_Z (switch_pairs (map classify_turn user_messages)))
                 (inject_Z (Py.len user_messages) * 0.3).
Proof.
  unfold _detect_language_switching. cbv zeta.
  destruct (Py.len user_messages <? 3); [reflexivity|].
  rewrite append_each. cbn [app].
  rewrite (map_ext _ _ language_tag_classify), <- map_map, count_switches_pairs.
  unfold Py.len. rewrite !length_map. reflexivity.
Qed.

(** C7. With fewer than three customer turns the detector returns false.
    Otherwise, each turn being Hindi (more Hindi than English markers),
    English (more English than Hindi markers) or Mixed (a tie), it returns
    true exactly when the number of adjacent Hindi/English transitions is
    strictly greater than 0.3 times the number of customer turns. *)
Theorem detect_language_switching_spec :
  forall user_messages : list user_message,
    ((List.length user_messages < 3)%nat ->
     _detect_language_switching user_messages = false) /\
    ((3 <= List.length user_messages)%nat ->
     (_detect_language_switching user_messages = true <->
      (0.3 * inject_Z (Z.of_nat (List.length user_messages))
       < inject_Z (switch_pairs (map classify_turn user_messages)))%Q)).
Proof.
  intros user_messages. rewrite detect_language_switching_eq. unfold Py.len.
  split; intros Hlen.
  - destruct (Z.of_nat (List.length user_messages) <? 3) eqn:E; [reflexivity|].
    apply Z.ltb_ge in E. lia.
  - destruct (Z.of_nat (List.length user_messages) <? 3) eqn:E.
    { apply Z.ltb_lt in E. lia. }
    unfold Py.Qgtb. rewrite Qltb_lt, (Qmult_comm 0.3). reflexivity.
Qed.

Lemma detect_language_switching_spec_witness :
  _detect_language_switching
    [turn "the rent is due"; turn "paisa nahi hai"; turn "i will not pay"] = true.
Proof.
  apply (proj2 (detect_language_switching_spec
                  [turn "the rent is due"; turn "paisa nahi hai";
                   turn "i will not pay"])).
  - cbn [List.length]. lia.
  - vm_compute. reflexivity.
Defined.

(** ** The indicator collector *)

Lemma append_matches_eq (render : string -> string) (text : string)
    (xs out : list string) :
  append_matches render text xs out = out ++ matched render text xs.
Proof.
  unfold append_matches, matched.
  revert out. induction xs as [|x xs IH]; intros out; cbn [fold_left filter].
  - cbn [map]. now rewrite app_nil_r.
  - destruct (Py.str_in x text).
    + rewrite IH. cbn [map]. rewrite <- app_assoc. reflexivity.
    + apply IH.
Qed.

Lemma detect_hinglish_patterns_eq (text : string) :
  _detect_hinglish_patterns text
  = evasive_evidence text ++ hostile_evidence text ++ distress_evidence text.
Proof.
  unfold _detect_hinglish_patterns. cbv zeta.
  rewrite !append_matches_eq. cbn [app]. rewrite <- app_assoc. reflexivity.
Qed.

(** C8. The indicators are the first seven entries of the evidence in the
    order high-risk keywords, medium-risk keywords, Hinglish patterns
    (evasive, hostile, financial distress), structural flag
    (call avoidance or disengagement), language-switching flag; there are
    at most seven of them. *)
Theorem identify_key_indicators_prefix :
  forall user_messages : list user_message,
    _identify_key_indicators user_messages
    = firstn 7 (evidence_sequence user_messages) /\
    (List.length (_identify_key_indicators user_messages) <= 7)%nat.
Proof.
  intros user_messages.
  assert (Heq : _identify_key_indicators user_messages
                = firstn 7 (evidence_sequence user_messages)).
  { unfold _identify_key_indicators, evidence_sequence, Py.slice_to. cbv zeta.
    f_equal.
    rewrite !append_matches_eq, detect_hinglish_patterns_eq.
    unfold high_risk_evidence, medium_risk_evidence, switching_evidence,
      structural_flags.
    generalize (matched
      (fun k => "High risk keyword: '" ++ _translate_keyword_for_report k ++ "'")%string
      (all_content_of user_messages) high_risk_keywords).
    generalize (matched
      (fun k => "Medium risk keyword: '" ++ _translate_keyword_for_report k ++ "'")%string
      (all_content_of user_messages) medium_risk_keywords).
    generalize (evasive_evidence (all_content_of user_messages)
                ++ hostile_evidence (all_content_of user_messages)
                ++ distress_evidence (all_content_of user_messages)).
    intros hinglish medium high. cbn [app].
    destruct (_detect_language_switching user_messages);
      destruct user_messages as [|only [|second rest]];
      try destruct (Py.len (Py.split (content only)) <=? 2);
      rewrite <- ?app_assoc, ?app_nil_r; reflexivity. }
  split; [exact Heq|]. rewrite Heq. apply firstn_le_length.
Qed.

(** ** Whole transcripts *)

(** The customer turn that one item contributes, if any. *)
Definition customer_turn_of (it : item) : list user_message :=
  if field_is (item_type it) "message" && field_is (item_role it) "user" then
    [ {| content := Py.lower (Py.join " " (get (item_content it) []));
         interrupted := get (item_interrupted it) false;
         confidence := get (item_transcript_confidence it) 1%Q |} ]
  else [].

Lemma classify_item_customer (st : list user_message * list assistant_message)
    (it : item) :
  fst (classify_item st it) = fst st ++ customer_turn_of it.
Proof.
  destruct st as [u a]. unfold classify_item, customer_turn_of. cbn [fst].
  destruct (field_is (item_type it) "message"); cbn [andb fst];
    [|now rewrite app_nil_r].
  destruct (field_is (item_role it) "user"); cbn [fst]; [reflexivity|].
  destruct (field_is (item_role it) "assistant"); cbn [fst];
    now rewrite app_nil_r.
Qed.

Lemma classify_loop_customer (its : list item)
    (st : list user_message * list assistant_message) :
  fst (fold_left classify_item its st) = fst st ++ flat_map customer_turn_of its.
Proof.
  revert st. induction its as [|it its IH]; intros st; cbn [fold_left flat_map].
  - now rewrite app_nil_r.
  - rewrite IH, classify_item_customer, <- app_assoc. reflexivity.
Qed.

Lemma customer_turns_flat_map (data : transcript) :
  customer_turns data = flat_map customer_turn_of (get (items data) []).
Proof.
  unfold customer_turns, separate_messages. cbv zeta.
  rewrite classify_loop_customer. reflexivity.
Qed.

Lemma field_is_eq (field : option string) (text : string) :
  field_is field text = true <-> field = Some text.
Proof.
  destruct field as [v|]; cbn [field_is].
  - rewrite String.eqb_eq. split; [now intros -> | now intros [= ->]].
  - split; discriminate.
Qed.

Lemma assistant_item_no_customer_turn (it : item) :
  field_is (item_role it) "assistant" = true -> customer_turn_of it = [].
Proof.
  intros Hrole. apply field_is_eq in Hrole. unfold customer_turn_of.
  rewrite Hrole. cbn [field_is]. rewrite andb_comm. reflexivity.
Qed.

Lemma customer_turns_without_assistant (its : list item) :
  flat_map customer_turn_of (without_assistant_items its)
  = flat_map customer_turn_of its.
Proof.
  unfold without_assistant_items.
  induction its as [|it its IH]; [reflexivity|]. cbn [filter flat_map].
  destruct (field_is (item_role it) "assistant") eqn:Hrole; cbn [negb].
  - rewrite (assistant_item_no_customer_turn it Hrole). exact IH.
  - cbn [flat_map]. now rewrite IH.
Qed.

Lemma no_customer_turn_iff (data : transcript) :
  no_customer_turn data <-> customer_turns data = [].
Proof.
  rewrite customer_turns_flat_map. unfold no_customer_turn.
  induction (get (items data) []) as [|it its IH]; cbn [flat_map].
  - split; [reflexivity | intros _ it []].
  - split.
    + intros Hno.
      assert (Hit : customer_turn_of it = []).
      { unfold customer_turn_of.
        destruct (field_is (item_type it) "message") eqn:Ht; [|reflexivity].
        destruct (field_is (item_role it) "user") eqn:Hr; [|reflexivity].
        exfalso. apply (Hno it (or_introl eq_refl)).
        split; now apply field_is_eq. }
      rewrite Hit. cbn [app]. apply IH.
      intros it' Hin. apply Hno. now right.
    + intros Hnil. apply app_eq_nil in Hnil. destruct Hnil as [Hit Hrest].
      intros it' [<-|Hin].
      * intros [Ht Hr]. unfold customer_turn_of in Hit.
        rewrite Ht, Hr in Hit. discriminate Hit.
      * apply IH; assumption.
Qed.

(** The fields of the result, in terms of the separated messages. *)
Lemma analyze_transcript_fields (file now : string) (data : transcript) :
  let u := customer_turns data in
  let r := analyze_transcript file now data in
  sentiment_score r = _analyze_sentiment u /\
  cooperation_score r = _analyze_cooperation u /\
  risk_score r =
    _calculate_risk_score (_analyze_sentiment u) (_analyze_cooperation u)
      (_analyze_keywords u) (_analyze_conversation_flow u (agent_turns data)) /\
  risk_level r = _determine_risk_level (risk_score r) /\
  key_indicators r = _identify_key_indicators u /\
  recommendations r =
    _generate_recommendations (risk_level r) (key_indicators r)
      (cooperation_score r) /\
  transcript_file r = file /\
  analysis_timestamp r = now.
Proof.
  unfold analyze_transcript, customer_turns, agent_turns.
  destruct (separate_messages data) as [u a].
  cbv beta iota zeta delta [fst snd sentiment_score cooperation_score risk_score
    risk_level key_indicators recommendations transcript_file analysis_timestamp].
  repeat split.
Qed.

(** The flow signal does not read the agent's messages. *)
Lemma conversation_flow_ignores_agent (u : list user_message)
    (a1 a2 : list assistant_message) :
  _analyze_conversation_flow u a1 = _analyze_conversation_flow u a2.
Proof. reflexivity. Qed.

(** C1. For every transcript the result has its risk score in [[0, 100]],
    its sentiment score in [[-1, 1]] and its cooperation score in
    [[0, 100]]. *)
Theorem analyze_transcript_score_ranges :
  forall (file now : string) (data : transcript),
    let r := analyze_transcript file now data in
    (0 <= risk_score r <= 100)%Q /\
    (-1 <= sentiment_score r <= 1)%Q /\
    (0 <= cooperation_score r <= 100)%Q.
Proof.
  intros file now data r.
  destruct (analyze_transcript_fields file now data)
    as (Hs & Hc & Hr & _).
  fold r in Hs, Hc, Hr. rewrite Hs, Hc, Hr.
  split; [apply calculate_risk_score_bounds|].
  split; [apply sentiment_bounds | apply cooperation_bounds].
Qed.

(** The signals of a call without customer turns, whatever the agent said. *)
Lemma silent_signals (a : list assistant_message) :
  _analyze_sentiment [] = 0%Q /\
  _analyze_cooperation [] = 50%Q /\
  _analyze_keywords [] = 0%Q /\
  (_analyze_conversation_flow [] a == 0)%Q /\
  _identify_key_indicators [] = [avoidance_flag] /\
  (_calculate_risk_score (_analyze_sentiment []) (_analyze_cooperation [])
     (_analyze_keywords []) (_analyze_conversation_flow [] a) == 30)%Q /\
  _determine_risk_level
    (_calculate_risk_score (_analyze_sentiment []) (_analyze_cooperation [])
       (_analyze_keywords []) (_analyze_conversation_flow [] a)) = MEDIUM.
Proof.
  repeat split; vm_compute; reflexivity.
Qed.

(** C6. A transcript without customer turns (no message item of role
    "user") is analysed without failure: the result has cooperation score
    50, sentiment score 0, keyword risk 0 and flow risk 0, its scores are
    in range, its level is the level of its score, and its indicators
    contain the call-avoidance flag. *)
Theorem analyze_transcript_no_customer_turn :
  forall (file now : string) (data : transcript),
    no_customer_turn data ->
    let r := analyze_transcript file now data in
    (cooperation_score r == 50)%Q /\
    (sentiment_score r == 0)%Q /\
    (_analyze_keywords (customer_turns data) == 0)%Q /\
    (_analyze_conversation_flow (customer_turns data) (agent_turns data) == 0)%Q /\
    In avoidance_flag (key_indicators r) /\
    (0 <= risk_score r <= 100)%Q /\
    risk_level r = _determine_risk_level (risk_score r).
Proof.
  intros file now data Hno r.
  apply no_customer_turn_iff in Hno.
  destruct (analyze_transcript_fields file now data)
    as (Hs & Hc & Hr & Hl & Hk & _).
  fold r in Hs, Hc, Hr, Hl, Hk.
  destruct (silent_signals (agent_turns data))
    as (Ks & Kc & Kk & Kf & Ki & _).
  rewrite Hno in *.
  rewrite Hs, Hc, Hk, Ks, Kc, Kk, Ki.
  repeat split; try reflexivity; try exact Kf.
  - now left.
  - rewrite Hr. apply calculate_risk_score_bounds.
  - rewrite Hr. apply calculate_risk_score_bounds.
  - exact Hl.
Qed.

(** A document whose only item is an agent message. *)
Definition agent_only_transcript : transcript :=
  {| items := Some [ {| item_type := Some "message";
                        item_role := Some "assistant";
                        item_content := Some ["Hello,"; "this is a reminder"];
                        item_interrupted := None;
                        item_transcript_confidence := None |} ] |}.

Lemma agent_only_no_customer_turn : no_customer_turn agent_only_transcript.
Proof.
  intros it [<-|[]] [_ Hrole]. discriminate Hrole.
Defined.

Lemma analyze_transcript_no_customer_turn_witness :
  In avoidance_flag
     (key_indicators (analyze_transcript "call.json" "2026-01-01 00:00:00"
                        agent_only_transcript)).
Proof.
  apply (analyze_transcript_no_customer_turn "call.json" "2026-01-01 00:00:00"
           agent_only_transcript agent_only_no_customer_turn).
Defined.

(** C10. A transcript without customer turns has risk score 30 and level
    Medium, hence never Low. *)
Theorem analyze_transcript_silent_is_medium :
  forall (file now : string) (data : transcript),
    no_customer_turn data ->
    let r := analyze_transcript file now data in
    (risk_score r == 30)%Q /\ risk_level r = MEDIUM /\ risk_level r <> LOW.
Proof.
  intros file now data Hno r.
  apply no_customer_turn_iff in Hno.
  destruct (analyze_transcript_fields file now data)
    as (_ & _ & Hr & Hl & _).
  fold r in Hr, Hl.
  destruct (silent_signals (agent_turns data)) as (_ & _ & _ & _ & _ & Kr & Kl).
  rewrite Hno in *.
  assert (Hlevel : risk_level r = MEDIUM) by (rewrite Hl, Hr; exact Kl).
  split; [rewrite Hr; exact Kr|]. split; [exact Hlevel|].
  rewrite Hlevel. discriminate.
Qed.

Lemma analyze_transcript_silent_is_medium_witness :
  risk_level (analyze_transcript "call.json" "2026-01-01 00:00:00"
                agent_only_transcript) = MEDIUM.
Proof.
  apply (analyze_transcript_silent_is_medium "call.json" "2026-01-01 00:00:00"
           agent_only_transcript agent_only_no_customer_turn).
Defined.

(** C9. Two transcripts that agree on their items outside those of role
    "assistant" give the same result in every field but the time stamp. *)
Theorem agent_turns_do_not_interfere :
  forall (file now1 now2 : string) (data1 data2 : transcript),
    without_assistant_items (get (items data1) [])
    = without_assistant_items (get (items data2) []) ->
    let r1 := analyze_transcript file now1 data1 in
    let r2 := analyze_transcript file now2 data2 in
    risk_level r1 = risk_level r2 /\
    risk_score r1 = risk_score r2 /\
    sentiment_score r1 = sentiment_score r2 /\
    cooperation_score r1 = cooperation_score r2 /\
    key_indicators r1 = key_indicators r2 /\
    recommendations r1 = recommendations r2 /\
    transcript_file r1 = transcript_file r2.
Proof.
  intros file now1 now2 data1 data2 Hsame r1 r2.
  assert (Hu : customer_turns data1 = customer_turns data2).
  { rewrite !customer_turns_flat_map.
    rewrite <- (customer_turns_without_assistant (get (items data1) [])),
            <- (customer_turns_without_assistant (get (items data2) [])).
    now rewrite Hsame. }
  destruct (analyze_transcript_fields file now1 data1)
    as (Hs1 & Hc1 & Hr1 & Hl1 & Hk1 & Hm1 & Hf1 & _).
  destruct (analyze_transcript_fields file now2 data2)
    as (Hs2 & Hc2 & Hr2 & Hl2 & Hk2 & Hm2 & Hf2 & _).
  fold r1 in Hs1, Hc1, Hr1, Hl1, Hk1, Hm1, Hf1.
  fold r2 in Hs2, Hc2, Hr2, Hl2, Hk2, Hm2, Hf2.
  rewrite Hu in *.
  rewrite (conversation_flow_ignores_agent _ _ (agent_turns data2)) in Hr1.
  assert (Hs : sentiment_score r1 = sentiment_score r2) by congruence.
  assert (Hc : cooperation_score r1 = cooperation_score r2) by congruence.
  assert (Hr : risk_score r1 = risk_score r2) by congruence.
  assert (Hl : risk_level r1 = risk_level r2) by congruence.
  assert (Hk : key_indicators r1 = key_indicators r2) by congruence.
  assert (Hm : recommendations r1 = recommendations r2) by congruence.
  repeat split; try assumption. congruence.
Qed.

(** The same customer message, with and without agent messages around it. *)
Definition customer_item : item :=
  {| item_type := Some "message"; item_role := Some "user";
     item_content := Some ["Paisa nahi hai,"; "call back later"];
     item_interrupted := Some true;
     item_transcript_confidence := Some 0.6%Q |}.

Definition agent_item (words : list string) (cut : bool) : item :=
  {| item_type := Some "message"; item_role := Some "assistant";
     item_content := Some words; item_interrupted := Some cut;
     item_transcript_confidence := None |}.

Lemma agent_turns_do_not_interfere_witness :
  risk_score
    (analyze_transcript "call.json" "2026-01-01 00:00:00"
       {| items := Some [agent_item ["Your payment is due"] true; customer_item] |})
  = risk_score
      (analyze_transcript "call.json" "2026-01-02 09:30:00"
         {| items := Some [customer_item; agent_item ["Thank you"] false;
                           agent_item ["Goodbye"] false] |}).
Proof.
  apply (agent_turns_do_not_interfere "call.json" "2026-01-01 00:00:00"
           "2026-01-02 09:30:00"
           {| items := Some [agent_item ["Your payment is due"] true; customer_item] |}
           {| items := Some [customer_item; agent_item ["Thank you"] false;
                             agent_item ["Goodbye"] false] |}).
  reflexivity.
Defined.

(** * Further properties *)

(** ** The sentiment estimate as a mean *)

Lemma Qsum_cons (x : Q) (l : list Q) : Qsum (x :: l) = (x + Qsum l)%Q.
Proof. reflexivity. Qed.

(** A loop that, on the selected elements, adds a value to the running
    total and one to the counter, and skips the others. *)
Lemma mean_loop {A : Type} (step : Q * Z -> A -> Q * Z) (sel : A -> bool)
    (val : A -> Q) :
  (forall t c x, sel x = true ->
     (fst (step (t, c) x) == t + val x)%Q /\ snd (step (t, c) x) = c + 1) ->
  (forall st x, sel x = false -> step st x = st) ->
  forall (l : list A) (t : Q) (c : Z),
    (fst (fold_left step l (t, c)) == t + Qsum (map val (filter sel l)))%Q /\
    snd (fold_left step l (t, c)) = c + Py.len (filter sel l).
Proof.
  intros Hsel Hskip. unfold Py.len.
  induction l as [|x l IH]; intros t c; cbn [fold_left filter].
  - cbn [map Qsum fold_right List.length fst snd]. split; [ring | lia].
  - destruct (sel x) eqn:Hx.
    + destruct (Hsel t c x Hx) as [Ht Hc].
      destruct (step (t, c) x) as [t1 c1]. cbn [fst snd] in Ht, Hc.
      destruct (IH t1 c1) as [IHt IHc]. cbn [map List.length].
      rewrite Qsum_cons. split.
      * rewrite IHt, Ht. ring.
      * rewrite IHc, Hc. lia.
    + rewrite (Hskip (t, c) x Hx). apply IH.
Qed.

Lemma sentiment_turn_counted (t : Q) (c : Z) (msg : user_message) :
  has_signal msg = true ->
  (fst (sentiment_turn (t, c) msg) == t + turn_sentiment msg)%Q /\
  snd (sentiment_turn (t, c) msg) = c + 1.
Proof.
  unfold has_signal, sentiment_turn, turn_sentiment. cbv zeta.
  rewrite !count_in_entries.
  pose proof (entries_present_nonneg positive_words (content msg)) as Hp.
  pose proof (entries_present_nonneg negative_words (content msg)) as Hn.
  revert Hp Hn.
  generalize (entries_present positive_words (content msg)).
  generalize (entries_present negative_words (content msg)).
  intros n p Hp Hn Hany. rewrite Hany. cbn [fst snd].
  apply orb_true_iff in Hany. rewrite !Z.ltb_lt in Hany.
  replace (Z.max (p + n) 1) with (p + n) by lia.
  split; reflexivity.
Qed.

Lemma sentiment_turn_skipped (st : Q * Z) (msg : user_message) :
  has_signal msg = false -> sentiment_turn st msg = st.
Proof.
  destruct st as [t c]. unfold has_signal, sentiment_turn. cbv zeta.
  rewrite !count_in_entries. intros Hnone. now rewrite Hnone.
Qed.

Lemma filter_idempotent {A : Type} (f : A -> bool) (l : list A) :
  filter f (filter f l) = filter f l.
Proof.
  induction l as [|x l IH]; [reflexivity|]. cbn [filter].
  destruct (f x) eqn:Hx; [|exact IH]. cbn [filter]. now rewrite Hx, IH.
Qed.

Lemma analyze_sentiment_mean (user_messages : list user_message) :
  (_analyze_sentiment user_messages == mean_sentiment user_messages)%Q.
Proof.
  unfold _analyze_sentiment, mean_sentiment. cbv zeta.
  destruct user_messages as [|msg rest]; [reflexivity|].
  destruct (mean_loop sentiment_turn has_signal turn_sentiment
              sentiment_turn_counted sentiment_turn_skipped
              (msg :: rest) 0%Q 0) as [Ht Hc].
  destruct (fold_left sentiment_turn (msg :: rest) (0%Q, 0)) as [t c].
  cbn [fst snd] in Ht, Hc. rewrite Ht, Hc, Qplus_0_l, Z.add_0_l.
  reflexivity.
Qed.

(** X1. The sentiment score is the mean, over the customer turns that
    match a positive or a negative word, of
    [(positive - negative) / (positive + negative)], and 0 when no turn
    matches; turns without a match do not weigh on it. *)
Theorem analyze_sentiment_is_mean_of_scored_turns :
  forall user_messages : list user_message,
    (_analyze_sentiment user_messages == mean_sentiment user_messages)%Q /\
    (_analyze_sentiment user_messages
     == _analyze_sentiment (filter has_signal user_messages))%Q /\
    (filter has_signal user_messages = [] ->
     (_analyze_sentiment user_messages == 0)%Q).
Proof.
  intros user_messages. split; [apply analyze_sentiment_mean|]. split.
  - rewrite !analyze_sentiment_mean. unfold mean_sentiment. cbv zeta.
    rewrite filter_idempotent. reflexivity.
  - intros Hnone. rewrite analyze_sentiment_mean. unfold mean_sentiment.
    cbv zeta. rewrite Hnone. reflexivity.
Qed.

Lemma analyze_sentiment_is_mean_of_scored_turns_witness :
  (_analyze_sentiment [turn "hello"; turn "is this the bank"] == 0)%Q.
Proof.
  apply (proj2 (proj2 (analyze_sentiment_is_mean_of_scored_turns
                         [turn "hello"; turn "is this the bank"]))).
  vm_compute. reflexivity.
Defined.

Lemma len_map {A B : Type} (f : A -> B) (l : list A) :
  Py.len (map f l) = Py.len l.
Proof. unfold Py.len. now rewrite length_map. Qed.

Lemma Qsum_all_equal (v : Q) (l : list Q) :
  Forall (fun x => (x == v)%Q) l ->
  (Qsum l == inject_Z (Py.len l) * v)%Q.
Proof.
  unfold Py.len. induction 1 as [|x l Hx _ IH].
  - cbn. ring.
  - cbv beta in Hx. rewrite Qsum_cons, IH. cbn [List.length].
    rewrite Nat2Z.inj_succ, <- Z.add_1_r, inject_Z_plus, Hx. ring.
Qed.

Lemma mean_of_equal (v : Q) (l : list Q) :
  l <> [] -> Forall (fun x => (x == v)%Q) l ->
  (Qsum l / inject_Z (Z.max (Py.len l) 1) == v)%Q.
Proof.
  intros Hne Hall. rewrite (Qsum_all_equal v l Hall).
  assert (Hlen : 1 <= Py.len l).
  { unfold Py.len. destruct l; [congruence | cbn [List.length]; lia]. }
  replace (Z.max (Py.len l) 1) with (Py.len l) by lia.
  field. intros Hz.
  assert (Hpos : (0 < inject_Z (Py.len l))%Q)
    by (change 0%Q with (inject_Z 0); rewrite <- Zlt_Qlt; lia).
  rewrite Hz in Hpos. apply (Qlt_irrefl 0), Hpos.
Qed.

Lemma ratio_self (p : Z) : 0 < p -> (inject_Z p / inject_Z p == 1)%Q.
Proof.
  intros Hp. field. intros Hz.
  assert (Hq : (0 < inject_Z p)%Q)
    by (change 0%Q with (inject_Z 0); rewrite <- Zlt_Qlt; lia).
  rewrite Hz in Hq. apply (Qlt_irrefl 0), Hq.
Qed.

Lemma turn_sentiment_positive (msg : user_message) :
  has_signal msg = true ->
  entries_present negative_words (content msg) = 0 ->
  (turn_sentiment msg == 1)%Q.
Proof.
  unfold has_signal, turn_sentiment.
  generalize (entries_present positive_words (content msg)).
  generalize (entries_present negative_words (content msg)).
  intros n p Hs ->. rewrite orb_false_r in Hs. apply Z.ltb_lt in Hs.
  rewrite Z.sub_0_r, Z.add_0_r. now apply ratio_self.
Qed.

Lemma turn_sentiment_negative (msg : user_message) :
  has_signal msg = true ->
  entries_present positive_words (content msg) = 0 ->
  (turn_sentiment msg == -1)%Q.
Proof.
  unfold has_signal, turn_sentiment.
  generalize (entries_present positive_words (content msg)).
  generalize (entries_present negative_words (content msg)).
  intros n p Hs ->. cbn [Z.ltb Z.compare orb] in Hs. apply Z.ltb_lt in Hs.
  rewrite Z.sub_0_l, Z.add_0_l, inject_Z_opp.
  setoid_replace (- inject_Z n / inject_Z n)%Q
    with (- (inject_Z n / inject_Z n))%Q by (unfold Qdiv; ring).
  now rewrite ratio_self.
Qed.

(** X2. When some customer turn matches a positive word and no turn
    matches a negative word, the sentiment score is 1; when some turn
    matches a negative word and none a positive word, it is -1. *)
Theorem analyze_sentiment_extremes :
  forall user_messages : list user_message,
    ((exists msg, In msg user_messages /\
                  0 < entries_present positive_words (content msg)) ->
     (forall msg, In msg user_messages ->
                  entries_present negative_words (content msg) = 0) ->
     (_analyze_sentiment user_messages == 1)%Q) /\
    ((exists msg, In msg user_messages /\
                  0 < entries_present negative_words (content msg)) ->
     (forall msg, In msg user_messages ->
                  entries_present positive_words (content msg) = 0) ->
     (_analyze_sentiment user_messages == -1)%Q).
Proof.
  intros user_messages. split; intros [msg [Hin Hpos]] Hnone;
    rewrite analyze_sentiment_mean; unfold mean_sentiment; cbv zeta;
    rewrite <- (len_map turn_sentiment); apply mean_of_equal.
  - intros Hnil.
    assert (Hm : In (turn_sentiment msg)
                    (map turn_sentiment (filter has_signal user_messages))).
    { apply in_map, filter_In. split; [exact Hin|]. unfold has_signal.
      apply orb_true_iff. left. now apply Z.ltb_lt. }
    rewrite Hnil in Hm. exact Hm.
  - apply Forall_forall. intros q Hq. apply in_map_iff in Hq.
    destruct Hq as [m [<- Hm]]. apply filter_In in Hm. destruct Hm as [Hm Hs].
    apply turn_sentiment_positive; [exact Hs | now apply Hnone].
  - intros Hnil.
    assert (Hm : In (turn_sentiment msg)
                    (map turn_sentiment (filter has_signal user_messages))).
    { apply in_map, filter_In. split; [exact Hin|]. unfold has_signal.
      apply orb_true_iff. right. now apply Z.ltb_lt. }
    rewrite Hnil in Hm. exact Hm.
  - apply Forall_forall. intros q Hq. apply in_map_iff in Hq.
    destruct Hq as [m [<- Hm]]. apply filter_In in Hm. destruct Hm as [Hm Hs].
    apply turn_sentiment_negative; [exact Hs | now apply Hnone].
Qed.

Lemma analyze_sentiment_extremes_witness :
  (_analyze_sentiment [turn "hello"; turn "yes okay thank you"] == 1)%Q.
Proof.
  apply (proj1 (analyze_sentiment_extremes
                  [turn "hello"; turn "yes okay thank you"])).
  - exists (turn "yes okay thank you"). split.
    + right. left. reflexivity.
    + vm_compute. reflexivity.
  - intros msg [<-|[<-|[]]]; vm_compute; reflexivity.
Defined.

(** ** The cooperation estimate without its clip *)

Lemma total_of_bounds {A : Type} (f g : A -> Z) (l : list A) :
  (forall x, In x l -> - g x <= f x <= g x) ->
  - total_of (map g l) <= total_of (map f l) <= total_of (map g l).
Proof.
  unfold total_of. induction l as [|x l IH]; intros Hb; cbn [map fold_right].
  - lia.
  - pose proof (Hb x (or_introl eq_refl)).
    assert (Hrest : forall y, In y l -> - g y <= f y <= g y)
      by (intros y Hy; apply Hb; now right).
    specialize (IH Hrest). lia.
Qed.

Lemma total_of_ext {A : Type} (f g : A -> Z) (l : list A) :
  (forall x, In x l -> f x = g x) -> total_of (map f l) = total_of (map g l).
Proof.
  unfold total_of. induction l as [|x l IH]; intros Hb; cbn [map fold_right].
  - reflexivity.
  - rewrite (Hb x (or_introl eq_refl)), IH; [reflexivity|].
    intros y Hy. apply Hb. now right.
Qed.

Lemma cooperation_points_within_total (user_messages : list user_message) :
  - total_indicators_of entries_present user_messages
  <= cooperation_points_of entries_present user_messages
  <= total_indicators_of entries_present user_messages.
Proof.
  unfold cooperation_points_of, total_indicators_of.
  apply total_of_bounds. intros msg _.
  pose proof (entries_present_nonneg cooperation_indicators (content msg)) as Hc.
  pose proof (entries_present_nonneg non_cooperation_indicators (content msg)) as Hn.
  revert Hc Hn.
  generalize (entries_present cooperation_indicators (content msg)).
  generalize (entries_present non_cooperation_indicators (content msg)).
  intros n c Hc Hn. lia.
Qed.

Lemma analyze_cooperation_entries (user_messages : list user_message) :
  (_analyze_cooperation user_messages
   == cooperation_of entries_present user_messages)%Q.
Proof.
  destruct user_messages as [|msg rest]; [reflexivity|].
  unfold _analyze_cooperation, cooperation_of. cbv beta iota zeta.
  rewrite cooperation_loop. rewrite !Z.add_0_l.
  destruct (total_indicators_of entries_present (msg :: rest) =? 0);
    [reflexivity|].
  rewrite clip_max_min by (unfold Qle; simpl; lia).
  apply clip_compat. ring.
Qed.

Lemma clip_inside (x lo hi : Q) :
  (lo <= x)%Q -> (x <= hi)%Q -> clip x lo hi = x.
Proof.
  intros Hlo Hhi. unfold clip.
  destruct (Py.Qltb x lo) eqn:E1.
  { apply Qltb_lt in E1. exfalso. apply (Qlt_not_le _ _ E1 Hlo). }
  destruct (Py.Qltb hi x) eqn:E2; [|reflexivity].
  apply Qltb_lt in E2. exfalso. apply (Qlt_not_le _ _ E2 Hhi).
Qed.

Lemma analyze_cooperation_ratio (user_messages : list user_message) :
  total_indicators_of entries_present user_messages <> 0 ->
  (_analyze_cooperation user_messages
   == 50 + 50 * (inject_Z (cooperation_points_of entries_present user_messages)
                 / inject_Z (total_indicators_of entries_present user_messages)))%Q.
Proof.
  intros Hne.
  pose proof (cooperation_points_within_total user_messages) as Hb.
  rewrite analyze_cooperation_entries. unfold cooperation_of. cbv zeta.
  revert Hne Hb.
  generalize (cooperation_points_of entries_present user_messages).
  generalize (total_indicators_of entries_present user_messages).
  intros total points Hne Hb.
  destruct (total =? 0) eqn:E; [apply Z.eqb_eq in E; lia|].
  destruct (ratio_in_unit points total) as [Hlo Hhi]; [lia | lia |].
  rewrite clip_inside; [reflexivity | lra | lra].
Qed.

(** X3. The points never exceed the total in absolute value, so whenever
    some indicator is matched the cooperation score is exactly
    [50 + 50 * (points / total)]: the clip to [[0, 100]] never changes the
    value. *)
Theorem analyze_cooperation_unclipped :
  forall user_messages : list user_message,
    let points := cooperation_points_of entries_present user_messages in
    let total := total_indicators_of entries_present user_messages in
    - total <= points <= total /\
    (total <> 0 ->
     (_analyze_cooperation user_messages
      == 50 + 50 * (inject_Z points / inject_Z total))%Q).
Proof.
  intros user_messages points total. split.
  - apply cooperation_points_within_total.
  - apply analyze_cooperation_ratio.
Qed.

Lemma analyze_cooperation_unclipped_witness :
  (_analyze_cooperation [turn "yes i understand"; turn "not now"]
   == 50 + 50 * (inject_Z 0 / inject_Z 4))%Q.
Proof.
  apply (proj2 (analyze_cooperation_unclipped
                  [turn "yes i understand"; turn "not now"])).
  vm_compute. discriminate.
Defined.

(** X4. When some indicator is matched and no customer turn matches an
    entry of the non-cooperation list the score is 100; when none matches
    an entry of the cooperation list it is 0. *)
Theorem analyze_cooperation_extremes :
  forall user_messages : list user_message,
    total_indicators_of entries_present user_messages <> 0 ->
    ((forall msg, In msg user_messages ->
        entries_present non_cooperation_indicators (content msg) = 0) ->
     (_analyze_cooperation user_messages == 100)%Q) /\
    ((forall msg, In msg user_messages ->
        entries_present cooperation_indicators (content msg) = 0) ->
     (_analyze_cooperation user_messages == 0)%Q).
Proof.
  intros user_messages Hne.
  pose proof (analyze_cooperation_ratio user_messages Hne) as Hscore.
  split; intros Hnone; rewrite Hscore.
  - assert (Hp : cooperation_points_of entries_present user_messages
                 = total_indicators_of entries_present user_messages).
    { unfold cooperation_points_of, total_indicators_of.
      apply total_of_ext. intros msg Hin. rewrite (Hnone msg Hin). lia. }
    rewrite Hp.
    generalize dependent (total_indicators_of entries_present user_messages).
    intros t Ht _ _. field. intros Hz.
    apply Ht. apply (inject_Z_injective t 0), Hz.
  - assert (Hp : cooperation_points_of entries_present user_messages
                 = - total_indicators_of entries_present user_messages).
    { unfold cooperation_points_of, total_indicators_of, total_of.
      induction user_messages as [|msg rest IH]; cbn [map fold_right];
        [reflexivity|].
      rewrite (Hnone msg (or_introl eq_refl)).
      assert (Hrest : forall m, In m rest ->
                entries_present cooperation_indicators (content m) = 0)
        by (intros m Hm; apply Hnone; now right).
      pose proof (total_of_ext
        (fun m => entries_present cooperation_indicators (content m)
                  - entries_present non_cooperation_indicators (content m))
        (fun m => - entries_present non_cooperation_indicators (content m))
        rest) as H1.
      pose proof (total_of_ext
        (fun m => entries_present cooperation_indicators (content m)
                  + entries_present non_cooperation_indicators (content m))
        (fun m => entries_present non_cooperation_indicators (content m))
        rest) as H2.
      unfold total_of in H1, H2.
      rewrite H1 by (intros m Hm; rewrite (Hrest m Hm); lia).
      rewrite H2 by (intros m Hm; rewrite (Hrest m Hm); lia).
      generalize (entries_present non_cooperation_indicators (content msg)).
      clear. intros n.
      induction rest as [|m rest IH]; cbn [map fold_right]; lia. }
    rewrite Hp.
    generalize dependent (total_indicators_of entries_present user_messages).
    intros t Ht _ _. rewrite inject_Z_opp. field. intros Hz.
    apply Ht. apply (inject_Z_injective t 0), Hz.
Qed.

Lemma analyze_cooperation_extremes_witness :
  (_analyze_cooperation [turn "hello"; turn "thank you, i understand"] == 100)%Q.
Proof.
  apply (proj1 (analyze_cooperation_extremes
                  [turn "hello"; turn "thank you, i understand"]
                  ltac:(vm_compute; discriminate))).
  intros msg [<-|[<-|[]]]; vm_compute; reflexivity.
Defined.

(** ** The conversation-flow signal in whole numbers *)

Lemma ratio_gt (s n : Z) (q : Q) :
  0 < n ->
  Py.Qgtb (inject_Z s / inject_Z n) q = true <-> (q * inject_Z n < inject_Z s)%Q.
Proof.
  intros Hn.
  assert (Hpos : (0 < inject_Z n)%Q)
    by (change 0%Q with (inject_Z 0); rewrite <- Zlt_Qlt; lia).
  unfold Py.Qgtb. rewrite Qltb_lt. split.
  - intros Hlt. apply Qnot_le_lt. intros Hle.
    apply (Qlt_not_le _ _ Hlt). apply Qle_shift_div_r; assumption.
  - intros Hlt. apply Qlt_shift_div_l; assumption.
Qed.

Lemma share_above_seven_tenths (s n : Z) :
  0 <= s <= n ->
  (0 <? n) && Py.Qgtb (inject_Z s / inject_Z n) 0.7 = (7 * n <? 10 * s).
Proof.
  intros Hs. destruct (0 <? n) eqn:Hn; cbn [andb].
  - apply Z.ltb_lt in Hn. apply eq_true_iff_eq.
    rewrite (ratio_gt s n 0.7 Hn), Z.ltb_lt, Zlt_Qlt, !inject_Z_mult.
    change (inject_Z 7) with 7%Q. change (inject_Z 10) with 10%Q.
    split; intros; lra.
  - apply Z.ltb_ge in Hn. symmetry. apply Z.ltb_ge. lia.
Qed.

Lemma share_above_half (s n : Z) :
  0 <= s <= n ->
  (0 <? n) && Py.Qgtb (inject_Z s / inject_Z n) 0.5 = (n <? 2 * s).
Proof.
  intros Hs. destruct (0 <? n) eqn:Hn; cbn [andb].
  - apply Z.ltb_lt in Hn. apply eq_true_iff_eq.
    rewrite (ratio_gt s n 0.5 Hn), Z.ltb_lt, Zlt_Qlt, !inject_Z_mult.
    change (inject_Z 2) with 2%Q.
    split; intros; lra.
  - apply Z.ltb_ge in Hn. symmetry. apply Z.ltb_ge. lia.
Qed.

Lemma len_filter_le {A : Type} (f : A -> bool) (l : list A) :
  0 <= Py.len (filter f l) <= Py.len l.
Proof.
  unfold Py.len. pose proof (filter_length_le f l). lia.
Qed.

Lemma conversation_flow_as_points (u : list user_message)
    (a : list assistant_message) :
  (_analyze_conversation_flow u a == inject_Z (flow_points u))%Q /\
  0 <= flow_points u <= 45.
Proof.
  unfold _analyze_conversation_flow, flow_points. cbv zeta.
  rewrite !sum_ones.
  change (Z.of_nat (List.length (filter (fun msg => interrupted msg) u)))
    with (interruptions u).
  change (Z.of_nat (List.length
            (filter (fun msg => Py.len (Py.split (content msg)) <=? 2) u)))
    with (short_turns u).
  change (Z.of_nat (List.length
            (filter (fun msg => Py.Qltb (confidence msg) 0.7) u)))
    with (unclear_turns u).
  rewrite (share_above_seven_tenths (short_turns u) (Py.len u))
    by apply len_filter_le.
  rewrite (share_above_half (unclear_turns u) (Py.len u))
    by apply len_filter_le.
  destruct (2 <? interruptions u);
    destruct (7 * Py.len u <? 10 * short_turns u);
    destruct (Py.len u <? 2 * unclear_turns u);
    (split; [reflexivity | lia]).
Qed.

(** X5. The flow signal is 20 when more than two customer turns were
    interrupted, plus 15 when [10 * short > 7 * turns] (more than seven
    tenths of the turns have at most two words), plus 10 when
    [2 * unclear > turns] (more than half of the turns have a confidence
    below 0.7); it is therefore at most 45 and the cap at 100 never
    applies. *)
Theorem analyze_conversation_flow_points :
  forall (user_messages : list user_message)
         (assistant_messages : list assistant_message),
    (_analyze_conversation_flow user_messages assistant_messages
     == inject_Z (flow_points user_messages))%Q /\
    0 <= flow_points user_messages <= 45.
Proof.
  intros u a. apply conversation_flow_as_points.
Qed.

(** ** The aggregate without its clip *)

Lemma keyword_bounds (user_messages : list user_message) :
  (0 <= _analyze_keywords user_messages <= 100)%Q.
Proof.
  unfold _analyze_keywords.
  destruct user_messages as [|msg rest]; [split; unfold Qle; simpl; lia|].
  cbv zeta.
  generalize (count_in high_risk_keywords (all_content_of (msg :: rest)) * 30 +
              count_in medium_risk_keywords (all_content_of (msg :: rest)) * 15 -
              count_in low_risk_keywords (all_content_of (msg :: rest)) * 10).
  intros z. change 0%Q with (inject_Z 0). change 100%Q with (inject_Z 100).
  rewrite <- !Zle_Qle. lia.
Qed.

Lemma flow_bounds (u : list user_message) (a : list assistant_message) :
  (0 <= _analyze_conversation_flow u a <= 45)%Q.
Proof.
  destruct (conversation_flow_as_points u a) as [Heq Hb].
  rewrite Heq. change 0%Q with (inject_Z 0). change 45%Q with (inject_Z 45).
  rewrite <- !Zle_Qle. exact Hb.
Qed.

Lemma risk_score_in_range (s c k f : Q) :
  (-1 <= s <= 1)%Q -> (0 <= c <= 100)%Q -> (0 <= k <= 100)%Q ->
  (0 <= f <= 100)%Q ->
  (_calculate_risk_score s c k f == weighted_risk s c k f)%Q /\
  (0 <= weighted_risk s c k f <= 100)%Q.
Proof.
  intros [Hs1 Hs2] [Hc1 Hc2] [Hk1 Hk2] [Hf1 Hf2].
  assert (Hw : (0 <= weighted_risk s c k f <= 100)%Q)
    by (unfold weighted_risk; split; lra).
  split; [|exact Hw].
  unfold _calculate_risk_score. cbv zeta.
  rewrite (Q.max_r 0 ((1 - s) * 50)) by lra.
  assert (Heq : ((1 - s) * 50 * 0.25 + (100 - c) * 0.35 + k * 0.30 + f * 0.10
                 == weighted_risk s c k f)%Q)
    by (unfold weighted_risk; ring).
  rewrite Heq. destruct Hw as [Hw1 Hw2].
  rewrite (Q.max_r 0 _ Hw1). apply Q.min_r, Hw2.
Qed.

(** X6. For signals within their ranges (sentiment in [[-1, 1]], the
    other three in [[0, 100]]) the aggregate is the plain weighted sum
    [0.25 * (1 - sentiment) * 50 + 0.35 * (100 - cooperation)
     + 0.30 * keyword_risk + 0.10 * flow_risk]: neither the inner [max]
    nor the outer clip changes it. *)
Theorem calculate_risk_score_in_range :
  forall sentiment cooperation keyword_risk flow_risk : Q,
    (-1 <= sentiment <= 1)%Q ->
    (0 <= cooperation <= 100)%Q ->
    (0 <= keyword_risk <= 100)%Q ->
    (0 <= flow_risk <= 100)%Q ->
    (_calculate_risk_score sentiment cooperation keyword_risk flow_risk
     == weighted_risk sentiment cooperation keyword_risk flow_risk)%Q /\
    (0 <= weighted_risk sentiment cooperation keyword_risk flow_risk <= 100)%Q.
Proof.
  intros s c k f. apply risk_score_in_range.
Qed.

Lemma calculate_risk_score_in_range_witness :
  (_calculate_risk_score 0 50 0 0 == weighted_risk 0 50 0 0)%Q.
Proof.
  apply (calculate_risk_score_in_range 0 50 0 0);
    split; unfold Qle; simpl; lia.
Defined.

Lemma sentiment_risk_antitone (s s' : Q) :
  (s <= s')%Q -> (Qmax 0 ((1 - s') * 50) <= Qmax 0 ((1 - s) * 50))%Q.
Proof. intros Hle. apply Q.max_le_compat_l. lra. Qed.

Lemma clip_score_monotone (x y : Q) :
  (x <= y)%Q -> (Qmin 100 (Qmax 0 x) <= Qmin 100 (Qmax 0 y))%Q.
Proof.
  intros Hle. apply Q.min_le_compat_l, Q.max_le_compat_l, Hle.
Qed.

(** X7. The aggregate never increases when the sentiment or the
    cooperation score increases, and never decreases when the keyword
    risk or the flow risk increases. *)
Theorem calculate_risk_score_monotone :
  forall s s' c c' k k' f f' : Q,
    (s <= s')%Q -> (c <= c')%Q -> (k' <= k)%Q -> (f' <= f)%Q ->
    (_calculate_risk_score s' c' k' f' <= _calculate_risk_score s c k f)%Q.
Proof.
  intros s s' c c' k k' f f' Hs Hc Hk Hf.
  unfold _calculate_risk_score. cbv zeta.
  apply clip_score_monotone.
  pose proof (sentiment_risk_antitone s s' Hs) as Hsr.
  revert Hsr.
  generalize (Qmax 0 ((1 - s') * 50)). generalize (Qmax 0 ((1 - s) * 50)).
  intros r r' Hsr. lra.
Qed.

Lemma calculate_risk_score_monotone_witness :
  (_calculate_risk_score 1 100 0 0 <= _calculate_risk_score (-1) 0 100 45)%Q.
Proof.
  apply calculate_risk_score_monotone; unfold Qle; simpl; lia.
Defined.

Lemma analyze_transcript_weighted (file now : string) (data : transcript) :
  let r := analyze_transcript file now data in
  let u := customer_turns data in
  (risk_score r
   == weighted_risk (_analyze_sentiment u) (_analyze_cooperation u)
        (_analyze_keywords u)
        (_analyze_conversation_flow u (agent_turns data)))%Q.
Proof.
  intros r u.
  destruct (analyze_transcript_fields file now data) as (_ & _ & Hr & _).
  fold r u in Hr. rewrite Hr.
  apply risk_score_in_range.
  - apply sentiment_bounds.
  - apply cooperation_bounds.
  - apply keyword_bounds.
  - pose proof (flow_bounds u (agent_turns data)) as Bf.
    split; [apply Bf | apply Qle_trans with 45%Q; [apply Bf|]].
    unfold Qle; simpl; lia.
Qed.

(** X8. No transcript scores above 94.5: the flow signal weighs at most
    4.5, so the top of the scale is out of reach; and the score of every
    transcript is the plain weighted sum of its four signals. *)
Theorem analyze_transcript_score_ceiling :
  forall (file now : string) (data : transcript),
    let r := analyze_transcript file now data in
    let u := customer_turns data in
    (risk_score r
     == weighted_risk (sentiment_score r) (cooperation_score r)
          (_analyze_keywords u)
          (_analyze_conversation_flow u (agent_turns data)))%Q /\
    (risk_score r <= 94.5)%Q.
Proof.
  intros file now data r u.
  destruct (analyze_transcript_fields file now data) as (Hs & Hc & _).
  fold r u in Hs, Hc.
  pose proof (analyze_transcript_weighted file now data) as Heq.
  fold r u in Heq. cbv zeta in Heq.
  pose proof (sentiment_bounds u) as Bs.
  pose proof (cooperation_bounds u) as Bc.
  pose proof (keyword_bounds u) as Bk.
  pose proof (flow_bounds u (agent_turns data)) as Bf.
  rewrite Hs, Hc. split; [exact Heq|]. rewrite Heq. unfold weighted_risk.
  revert Bs Bc Bk Bf.
  generalize (_analyze_sentiment u) (_analyze_cooperation u)
    (_analyze_keywords u) (_analyze_conversation_flow u (agent_turns data)).
  intros s c k f Bs Bc Bk Bf. lra.
Qed.

(** X9. A transcript is classified Critical only when its keyword risk is
    at least 35: sentiment, cooperation and flow together weigh at most
    64.5. *)
Theorem critical_needs_keywords :
  forall (file now : string) (data : transcript),
    risk_level (analyze_transcript file now data) = CRITICAL ->
    (35 <= _analyze_keywords (customer_turns data))%Q.
Proof.
  intros file now data Hcrit.
  destruct (analyze_transcript_fields file now data)
    as (_ & _ & _ & Hl & _).
  pose proof (analyze_transcript_weighted file now data) as Heq.
  cbv zeta in Hl, Heq.
  rewrite Hl in Hcrit.
  destruct (determine_risk_level_cases
              (risk_score (analyze_transcript file now data)))
    as [[_ H75]|[[Hx _]|[[Hx _]|[Hx _]]]]; try congruence.
  rewrite Heq in H75. unfold weighted_risk in H75.
  pose proof (sentiment_bounds (customer_turns data)) as Bs.
  pose proof (cooperation_bounds (customer_turns data)) as Bc.
  pose proof (flow_bounds (customer_turns data) (agent_turns data)) as Bf.
  revert H75 Bs Bc Bf.
  generalize (_analyze_sentiment (customer_turns data))
    (_analyze_cooperation (customer_turns data))
    (_analyze_keywords (customer_turns data))
    (_analyze_conversation_flow (customer_turns data) (agent_turns data)).
  intros s c k f H75 Bs Bc Bf. lra.
Qed.

Lemma critical_needs_keywords_witness :
  (35 <= _analyze_keywords (customer_turns refusing_transcript))%Q.
Proof.
  apply (critical_needs_keywords "call.json" "2026-01-01 00:00:00"
           refusing_transcript).
  vm_compute. reflexivity.
Defined.

(** ** Substrings *)

Lemma prefix_spec (n h : string) :
  String.prefix n h = true <-> exists post, h = (n ++ post)%string.
Proof.
  revert h. induction n as [|c n IH]; intros h.
  - split; [intros _; now exists h | intros _; now destruct h].
  - destruct h as [|d h]; cbn [String.prefix].
    + split; [discriminate | intros [post Hpost]; discriminate Hpost].
    + destruct (Ascii.ascii_dec c d) as [->|Hcd].
      * rewrite IH. split; intros [post Hpost]; exists post.
        -- cbn. now rewrite Hpost.
        -- cbn in Hpost. now injection Hpost.
      * split; [discriminate|]. intros [post Hpost]. cbn in Hpost.
        injection Hpost as Hd _. congruence.
Qed.

(** [Py.str_in needle hay] holds exactly when [hay] is some text, then
    [needle], then some text. *)
Lemma str_in_spec (n h : string) :
  Py.str_in n h = true <-> exists pre post, h = (pre ++ n ++ post)%string.
Proof.
  induction h as [|d h IH].
  - cbn [Py.str_in]. destruct (String.prefix n "") eqn:Hp.
    + apply prefix_spec in Hp. destruct Hp as [post Hpost].
      split; [intros _; now exists ""%string, post | reflexivity].
    + split; [discriminate|]. intros [pre [post Heq]].
      destruct pre as [|c pre]; [|discriminate Heq].
      cbn in Heq. assert (Hp' : String.prefix n "" = true)
        by (apply prefix_spec; now exists post).
      congruence.
  - cbn [Py.str_in]. destruct (String.prefix n (String d h)) eqn:Hp.
    + apply prefix_spec in Hp. destruct Hp as [post Hpost].
      split; [intros _; now exists ""%string, post | reflexivity].
    + rewrite IH. split.
      * intros [pre [post Heq]]. exists (String d pre), post. cbn.
        now rewrite Heq.
      * intros [pre [post Heq]]. destruct pre as [|c pre].
        -- cbn in Heq. assert (Hp' : String.prefix n (String d h) = true)
             by (apply prefix_spec; now exists post).
           congruence.
        -- cbn in Heq. injection Heq as _ Heq. now exists pre, post.
Qed.

Lemma append_assoc (a b c : string) :
  ((a ++ b) ++ c = a ++ (b ++ c))%string.
Proof.
  induction a as [|x a IH]; [reflexivity|]. cbn. now rewrite IH.
Qed.

Lemma str_in_within (n a h b : string) :
  Py.str_in n h = true -> Py.str_in n (a ++ h ++ b)%string = true.
Proof.
  rewrite !str_in_spec. intros [pre [post ->]].
  exists (a ++ pre)%string, (post ++ b)%string.
  now rewrite !append_assoc.
Qed.

Lemma all_chars_append (p : ascii -> bool) (a b : string) :
  all_chars p (a ++ b)%string = all_chars p a && all_chars p b.
Proof.
  induction a as [|c a IH]; [reflexivity|]. cbn.
  now rewrite IH, andb_assoc.
Qed.

Lemma all_chars_substring (p : ascii -> bool) (n h : string) :
  Py.str_in n h = true -> all_chars p h = true -> all_chars p n = true.
Proof.
  rewrite str_in_spec. intros [pre [post ->]].
  rewrite !all_chars_append, !andb_true_iff. tauto.
Qed.

Lemma chr_lower_not_capital (c : ascii) : is_capital (Py.chr_lower c) = false.
Proof.
  destruct c as [[] [] [] [] [] [] [] []]; reflexivity.
Qed.

Lemma lower_no_capitals (s : string) : no_capitals (Py.lower s) = true.
Proof.
  unfold no_capitals. induction s as [|c s IH]; [reflexivity|].
  cbn [Py.lower all_chars]. now rewrite chr_lower_not_capital, IH.
Qed.

Lemma join_no_capitals (l : list string) :
  Forall (fun s => no_capitals s = true) l ->
  no_capitals (Py.join " " l) = true.
Proof.
  unfold Py.join, no_capitals.
  induction 1 as [|s l Hs Hl IH]; [reflexivity|].
  destruct l as [|s' l]; cbn [String.concat]; [exact Hs|].
  rewrite !all_chars_append, Hs. cbn [andb]. exact IH.
Qed.

(** Every customer turn is in lower case. *)
Lemma customer_turns_no_capitals (data : transcript) :
  Forall (fun msg => no_capitals (content msg) = true) (customer_turns data).
Proof.
  rewrite customer_turns_flat_map.
  induction (get (items data) []) as [|it its IH]; cbn [flat_map].
  - constructor.
  - apply Forall_app. split; [|exact IH].
    unfold customer_turn_of.
    destruct (field_is (item_type it) "message" && field_is (item_role it) "user").
    + constructor; [|constructor]. cbn [content]. apply lower_no_capitals.
    + constructor.
Qed.

Lemma all_content_no_capitals (user_messages : list user_message) :
  Forall (fun msg => no_capitals (content msg) = true) user_messages ->
  no_capitals (all_content_of user_messages) = true.
Proof.
  intros Hall. unfold all_content_of. apply join_no_capitals.
  apply Forall_map. exact Hall.
Qed.

(** ** The evidence behind each indicator *)

Lemma matched_In (render : string -> string) (text : string)
    (xs : list string) (x : string) :
  In x (matched render text xs) ->
  exists k, In k xs /\ Py.str_in k text = true /\ x = render k.
Proof.
  unfold matched. intros Hin. apply in_map_iff in Hin.
  destruct Hin as [k [Hk Hf]]. apply filter_In in Hf.
  exists k. repeat split; [apply Hf | apply Hf | now symmetry].
Qed.

Lemma identify_key_indicators_evidence (user_messages : list user_message) :
  _identify_key_indicators user_messages
  = firstn 7 (keyword_and_pattern_evidence user_messages
              ++ structural_flags user_messages
              ++ switching_evidence user_messages).
Proof.
  unfold _identify_key_indicators, keyword_and_pattern_evidence, Py.slice_to.
  cbv zeta. f_equal.
  rewrite !append_matches_eq, detect_hinglish_patterns_eq.
  unfold high_risk_evidence, medium_risk_evidence, switching_evidence,
    structural_flags.
  generalize (matched
    (fun k => "High risk keyword: '" ++ _translate_keyword_for_report k ++ "'")%string
    (all_content_of user_messages) high_risk_keywords).
  generalize (matched
    (fun k => "Medium risk keyword: '" ++ _translate_keyword_for_report k ++ "'")%string
    (all_content_of user_messages) medium_risk_keywords).
  generalize (evasive_evidence (all_content_of user_messages)
              ++ hostile_evidence (all_content_of user_messages)
              ++ distress_evidence (all_content_of user_messages)).
  intros hinglish medium high. cbn [app].
  destruct (_detect_language_switching user_messages);
    destruct user_messages as [|only [|second rest]];
    try destruct (Py.len (Py.split (content only)) <=? 2);
    rewrite <- ?app_assoc, ?app_nil_r; reflexivity.
Qed.

(** Where an entry of the keyword and pattern evidence comes from. *)
Lemma keyword_and_pattern_evidence_In (user_messages : list user_message)
    (x : string) :
  In x (keyword_and_pattern_evidence user_messages) ->
  exists k, Py.str_in k (all_content_of user_messages) = true /\
    ((In k high_risk_keywords /\
      x = ("High risk keyword: '" ++ _translate_keyword_for_report k ++ "'")%string) \/
     (In k medium_risk_keywords /\
      x = ("Medium risk keyword: '" ++ _translate_keyword_for_report k ++ "'")%string) \/
     (In k evasive_phrases /\
      x = ("Evasive Hinglish phrase: '" ++ k ++ "'")%string) \/
     (In k hostile_phrases /\
      x = ("Hostile Hinglish phrase: '" ++ k ++ "'")%string) \/
     (In k distress_phrases /\
      x = ("Financial distress indicator: '" ++ k ++ "'")%string)).
Proof.
  unfold keyword_and_pattern_evidence, high_risk_evidence, medium_risk_evidence,
    evasive_evidence, hostile_evidence, distress_evidence.
  cbv zeta. intros Hin.
  repeat (apply in_app_or in Hin; destruct Hin as [H|Hin]);
    [ | | | | rename Hin into H ];
    apply matched_In in H; destruct H as [k [Hk [Hs Hx]]];
    exists k; (split; [exact Hs|]).
  - left. split; [exact Hk | exact Hx].
  - right; left. split; [exact Hk | exact Hx].
  - right; right; left. split; [exact Hk | exact Hx].
  - right; right; right; left. split; [exact Hk | exact Hx].
  - right; right; right; right. split; [exact Hk | exact Hx].
Qed.

(** None of the three flags is an entry of the keyword and pattern
    evidence. *)
Lemma flags_not_keyword_evidence (user_messages : list user_message) (x : string) :
  x = avoidance_flag \/ x = disengagement_flag \/ x = switching_flag ->
  ~ In x (keyword_and_pattern_evidence user_messages).
Proof.
  intros Hx Hin. apply keyword_and_pattern_evidence_In in Hin.
  destruct Hin as [k [_ Hk]].
  destruct Hx as [ -> | [ -> | -> ] ];
    destruct Hk as [[_ H]|[[_ H]|[[_ H]|[[_ H]|[_ H]]]]];
    cbn [append] in H; discriminate H.
Qed.

Lemma In_firstn {A : Type} (n : nat) (l : list A) (x : A) :
  In x (firstn n l) -> In x l.
Proof.
  revert l. induction n as [|n IH]; intros l Hin; [destruct Hin|].
  destruct l as [|y l]; [destruct Hin|]. cbn in Hin.
  destruct Hin as [->|Hin]; [now left | right; now apply IH].
Qed.

(** X10. The call-avoidance flag is among the indicators exactly when
    there is no customer turn. *)
Theorem avoidance_flag_iff_no_turn :
  forall user_messages : list user_message,
    In avoidance_flag (_identify_key_indicators user_messages)
    <-> user_messages = [].
Proof.
  intros u. split.
  - rewrite identify_key_indicators_evidence. intros Hin.
    apply In_firstn in Hin. rewrite !in_app_iff in Hin.
    destruct Hin as [Hin|[Hin|Hin]].
    + exfalso. apply (flags_not_keyword_evidence u avoidance_flag); auto.
    + destruct u as [|only [|second rest]]; [reflexivity| |destruct Hin].
      cbn [structural_flags] in Hin.
      destruct (Py.len (Py.split (content only)) <=? 2); [|destruct Hin].
      destruct Hin as [Hin|[]]. discriminate Hin.
    + unfold switching_evidence in Hin.
      destruct (_detect_language_switching u); [|destruct Hin].
      destruct Hin as [Hin|[]]. discriminate Hin.
  - intros ->. vm_compute. now left.
Qed.

(** X11. The disengagement flag is reported only for a single customer
    turn of at most two words, and the language-switching flag only when
    the detector fires. *)
Theorem structural_flags_sound :
  forall user_messages : list user_message,
    (In disengagement_flag (_identify_key_indicators user_messages) ->
     exists only, user_messages = [only] /\
                  Py.len (Py.split (content only)) <= 2) /\
    (In switching_flag (_identify_key_indicators user_messages) ->
     _detect_language_switching user_messages = true).
Proof.
  intros u. rewrite identify_key_indicators_evidence. split; intros Hin;
    apply In_firstn in Hin; rewrite !in_app_iff in Hin;
    destruct Hin as [Hin|[Hin|Hin]].
  - exfalso. apply (flags_not_keyword_evidence u disengagement_flag); auto.
  - destruct u as [|only [|second rest]]; cbn [structural_flags] in Hin.
    + destruct Hin as [Hin|[]]. discriminate Hin.
    + destruct (Py.len (Py.split (content only)) <=? 2) eqn:Hw;
        [|destruct Hin].
      exists only. split; [reflexivity | now apply Z.leb_le].
    + destruct Hin.
  - unfold switching_evidence in Hin.
    destruct (_detect_language_switching u); [|destruct Hin].
    destruct Hin as [Hin|[]]. discriminate Hin.
  - exfalso. apply (flags_not_keyword_evidence u switching_flag); auto.
  - destruct u as [|only [|second rest]]; cbn [structural_flags] in Hin.
    + destruct Hin as [Hin|[]]. discriminate Hin.
    + destruct (Py.len (Py.split (content only)) <=? 2); [|destruct Hin].
      destruct Hin as [Hin|[]]. discriminate Hin.
    + destruct Hin.
  - unfold switching_evidence in Hin.
    destruct (_detect_language_switching u); [reflexivity | destruct Hin].
Qed.

Lemma structural_flags_sound_witness :
  exists only, [turn "ok bye"] = [only] /\ Py.len (Py.split (content only)) <= 2.
Proof.
  apply (proj1 (structural_flags_sound [turn "ok bye"])).
  vm_compute. now left.
Defined.

(** X12. When the keyword tables and the phrase lists already give seven
    entries or more, the indicators are the first seven of them: the
    disengagement flag and the language-switching flag are cut off, even
    when their conditions hold. *)
Theorem indicators_truncation_drops_flags :
  forall user_messages : list user_message,
    (7 <= List.length (keyword_and_pattern_evidence user_messages))%nat ->
    _identify_key_indicators user_messages
    = firstn 7 (keyword_and_pattern_evidence user_messages) /\
    ~ In disengagement_flag (_identify_key_indicators user_messages) /\
    ~ In switching_flag (_identify_key_indicators user_messages).
Proof.
  intros u Hlen.
  assert (Heq : _identify_key_indicators u
                = firstn 7 (keyword_and_pattern_evidence u)).
  { rewrite identify_key_indicators_evidence, firstn_app.
    replace (7 - List.length (keyword_and_pattern_evidence u))%nat with 0%nat
      by lia.
    cbn [firstn]. apply app_nil_r. }
  split; [exact Heq|]. rewrite Heq.
  split; intros Hin; apply In_firstn in Hin;
    [apply (flags_not_keyword_evidence u disengagement_flag) |
     apply (flags_not_keyword_evidence u switching_flag)]; auto.
Qed.

Lemma indicators_truncation_drops_flags_witness :
  _identify_key_indicators
    [turn "broke,unemployed,bankruptcy,lawyer,dispute,scam court"]
  = firstn 7 (keyword_and_pattern_evidence
                [turn "broke,unemployed,bankruptcy,lawyer,dispute,scam court"]).
Proof.
  apply (indicators_truncation_drops_flags
           [turn "broke,unemployed,bankruptcy,lawyer,dispute,scam court"]).
  apply Nat.leb_le. vm_compute. reflexivity.
Defined.

(** X13. The distress phrase "EMI bhi nahi de pa raha" is never reported:
    customer text is put in lower case before matching and the phrase is
    written with capitals. *)
Theorem capital_distress_phrase_never_reported :
  forall (file now : string) (data : transcript),
    (forall msg, In msg (customer_turns data) ->
       Py.str_in "EMI bhi nahi de pa raha" (content msg) = false) /\
    ~ In "Financial distress indicator: 'EMI bhi nahi de pa raha'"
         (key_indicators (analyze_transcript file now data)).
Proof.
  intros file now data.
  pose proof (customer_turns_no_capitals data) as Hlow.
  split.
  - intros msg Hin. rewrite Forall_forall in Hlow.
    destruct (Py.str_in "EMI bhi nahi de pa raha" (content msg)) eqn:Hs;
      [|reflexivity].
    pose proof (all_chars_substring _ _ _ Hs (Hlow msg Hin)) as Hcap.
    vm_compute in Hcap. discriminate Hcap.
  - destruct (analyze_transcript_fields file now data)
      as (_ & _ & _ & _ & Hk & _).
    cbv zeta in Hk. rewrite Hk, identify_key_indicators_evidence.
    intros Hin. apply In_firstn in Hin. rewrite !in_app_iff in Hin.
    destruct Hin as [Hin|[Hin|Hin]].
    + apply keyword_and_pattern_evidence_In in Hin.
      destruct Hin as [k [Hs Hk']].
      destruct Hk' as [[_ H]|[[_ H]|[[_ H]|[[_ H]|[Hd H]]]]];
        try (cbn [append] in H; discriminate H).
      assert (Hk'' : k = "EMI bhi nahi de pa raha").
      { cbn in Hd.
        destruct Hd as [<-|[<-|[<-|[<-|[<-|[<-|[]]]]]]];
          solve [reflexivity | cbn [append] in H; discriminate H]. }
      subst k.
      pose proof (all_chars_substring _ _ _ Hs
                    (all_content_no_capitals _ Hlow)) as Hcap.
      vm_compute in Hcap. discriminate Hcap.
    + destruct (customer_turns data) as [|only [|second rest]];
        cbn [structural_flags] in Hin.
      * destruct Hin as [Hin|[]]. discriminate Hin.
      * destruct (Py.len (Py.split (content only)) <=? 2); [|destruct Hin].
        destruct Hin as [Hin|[]]. discriminate Hin.
      * destruct Hin.
    + unfold switching_evidence in Hin.
      destruct (_detect_language_switching (customer_turns data));
        [|destruct Hin].
      destruct Hin as [Hin|[]]. discriminate Hin.
Qed.

(** ** From evidence to advice *)

Lemma lower_append (a b : string) :
  Py.lower (a ++ b)%string = (Py.lower a ++ Py.lower b)%string.
Proof.
  induction a as [|c a IH]; [reflexivity|]. cbn. now rewrite IH.
Qed.

Lemma append_empty_r (a : string) : (a ++ "")%string = a.
Proof. induction a as [|c a IH]; [reflexivity|]. cbn. now rewrite IH. Qed.

Lemma join_In (sep x : string) (l : list string) :
  In x l -> exists pre post, Py.join sep l = (pre ++ x ++ post)%string.
Proof.
  unfold Py.join. induction l as [|y l IH]; intros Hin; [destruct Hin|].
  destruct Hin as [->|Hin].
  - destruct l as [|z l]; cbn [String.concat].
    + exists ""%string, ""%string. cbn [append]. now rewrite append_empty_r.
    + exists ""%string, (sep ++ String.concat sep (z :: l))%string. reflexivity.
  - destruct l as [|z l]; [destruct Hin|].
    destruct (IH Hin) as [pre [post Heq]].
    exists (y ++ sep ++ pre)%string, post.
    change (String.concat sep (y :: z :: l))
      with (y ++ sep ++ String.concat sep (z :: l))%string.
    rewrite Heq, !append_assoc. reflexivity.
Qed.

(** A phrase found in the lower case of one indicator is found in the
    lower case of the joined indicators. *)
Lemma str_in_indicator_text (needle x : string) (indicators : list string) :
  In x indicators ->
  Py.str_in needle (Py.lower x) = true ->
  Py.str_in needle (Py.lower (Py.join " " indicators)) = true.
Proof.
  intros Hin Hx. destruct (join_In " " x indicators Hin) as [pre [post ->]].
  rewrite !lower_append. now apply str_in_within.
Qed.

Lemma str_in_prefix (needle rest : string) :
  Py.str_in needle (needle ++ rest)%string = true.
Proof. apply str_in_spec. now exists ""%string, rest. Qed.

(** Membership in the result of [_get_hinglish_recommendations] for the
    four lines tied to the joined indicator text. *)
Lemma hinglish_recommendations_text (indicators : list string) :
  let text := Py.lower (Py.join " " indicators) in
  (Py.str_in "evasive hinglish phrase" text = true ->
   In evasive_advice (_get_hinglish_recommendations indicators)) /\
  (Py.str_in "hostile hinglish phrase" text = true ->
   In hostile_advice (_get_hinglish_recommendations indicators)) /\
  (Py.str_in "financial distress indicator" text = true ->
   In distress_advice (_get_hinglish_recommendations indicators)) /\
  (Py.str_in "language switching" text = true ->
   In switching_advice (_get_hinglish_recommendations indicators)).
Proof.
  unfold _get_hinglish_recommendations. cbv zeta.
  generalize (Py.str_in "evasive hinglish phrase"
                (Py.lower (Py.join " " indicators))).
  generalize (Py.str_in "hostile hinglish phrase"
                (Py.lower (Py.join " " indicators))).
  generalize (Py.str_in "financial distress indicator"
                (Py.lower (Py.join " " indicators))).
  generalize (Py.str_in "language switching"
                (Py.lower (Py.join " " indicators))).
  generalize (any_indicator
                (fun ind => Py.str_in "no money" ind || Py.str_in "unemployed" ind
                            || Py.str_in "no job" ind) indicators).
  generalize (any_indicator
                (fun ind => Py.str_in "lawyer" ind || Py.str_in "court" ind
                            || Py.str_in "case" ind) indicators).
  intros legal hardship switching distress hostile evasive.
  repeat split; intros ->;
    destruct legal, hardship; try destruct switching; try destruct distress;
    try destruct hostile; try destruct evasive;
    cbn [app In]; unfold evasive_advice, hostile_advice, distress_advice,
      switching_advice; tauto.
Qed.

Lemma generate_recommendations_hinglish (level : RiskLevel)
    (indicators : list string) (cooperation : Q) (line : string) :
  In line (_get_hinglish_recommendations indicators) ->
  In line (_generate_recommendations level indicators cooperation).
Proof.
  intros Hin. unfold _generate_recommendations. cbv zeta.
  apply in_or_app. right. exact Hin.
Qed.

(** X14. Evidence that survives among the indicators brings its advice:
    the language-switching flag brings the advice on switching languages,
    and an evasive, hostile or financial-distress phrase brings the advice
    of its kind, for every transcript. *)
Theorem evidence_brings_advice :
  forall (file now : string) (data : transcript),
    let r := analyze_transcript file now data in
    (In switching_flag (key_indicators r) ->
     In switching_advice (recommendations r)) /\
    (forall phrase,
       In ("Evasive Hinglish phrase: '" ++ phrase ++ "'")%string (key_indicators r) ->
       In evasive_advice (recommendations r)) /\
    (forall phrase,
       In ("Hostile Hinglish phrase: '" ++ phrase ++ "'")%string (key_indicators r) ->
       In hostile_advice (recommendations r)) /\
    (forall phrase,
       In ("Financial distress indicator: '" ++ phrase ++ "'")%string (key_indicators r) ->
       In distress_advice (recommendations r)).
Proof.
  intros file now data r.
  destruct (analyze_transcript_fields file now data)
    as (_ & _ & _ & _ & _ & Hm & _).
  fold r in Hm. rewrite Hm.
  destruct (hinglish_recommendations_text (key_indicators r))
    as (Hev & Hho & Hdi & Hsw).
  cbv zeta in Hev, Hho, Hdi, Hsw.
  repeat split; [intros Hin | intros phrase Hin ..];
    apply generate_recommendations_hinglish.
  - apply Hsw. apply (str_in_indicator_text _ _ _ Hin).
    vm_compute. reflexivity.
  - apply Hev. apply (str_in_indicator_text _ _ _ Hin).
    rewrite lower_append.
    change (Py.lower "Evasive Hinglish phrase: '")
      with ("evasive hinglish phrase" ++ ": '")%string.
    rewrite append_assoc. apply str_in_prefix.
  - apply Hho. apply (str_in_indicator_text _ _ _ Hin).
    rewrite lower_append.
    change (Py.lower "Hostile Hinglish phrase: '")
      with ("hostile hinglish phrase" ++ ": '")%string.
    rewrite append_assoc. apply str_in_prefix.
  - apply Hdi. apply (str_in_indicator_text _ _ _ Hin).
    rewrite lower_append.
    change (Py.lower "Financial distress indicator: '")
      with ("financial distress indicator" ++ ": '")%string.
    rewrite append_assoc. apply str_in_prefix.
Qed.

Lemma evidence_brings_advice_witness :
  In switching_advice
     (recommendations (analyze_transcript "call.json" "2026-01-01 00:00:00"
                         switching_transcript)).
Proof.
  apply (proj1 (evidence_brings_advice "call.json" "2026-01-01 00:00:00"
                  switching_transcript)).
  vm_compute. tauto.
Defined.

(** ** How many recommendations *)

Lemma hinglish_recommendations_count (indicators : list string) :
  (List.length (_get_hinglish_recommendations indicators) <= 6)%nat.
Proof.
  unfold _get_hinglish_recommendations. cbv zeta.
  generalize (Py.str_in "evasive hinglish phrase"
                (Py.lower (Py.join " " indicators))).
  generalize (Py.str_in "hostile hinglish phrase"
                (Py.lower (Py.join " " indicators))).
  generalize (Py.str_in "financial distress indicator"
                (Py.lower (Py.join " " indicators))).
  generalize (Py.str_in "language switching"
                (Py.lower (Py.join " " indicators))).
  generalize (any_indicator
                (fun ind => Py.str_in "no money" ind || Py.str_in "unemployed" ind
                            || Py.str_in "no job" ind) indicators).
  generalize (any_indicator
                (fun ind => Py.str_in "lawyer" ind || Py.str_in "court" ind
                            || Py.str_in "case" ind) indicators).
  intros legal hardship switching distress hostile evasive.
  destruct legal, hardship, switching, distress, hostile, evasive;
    cbn [app List.length]; lia.
Qed.

(** X15. Whatever the level, the indicators and the cooperation score,
    there are at least four and at most eleven recommendations: the four
    of the level, at most one on cooperation and at most six drawn from
    the indicators. *)
Theorem generate_recommendations_count :
  forall (level : RiskLevel) (indicators : list string) (cooperation : Q),
    (4 <= List.length (_generate_recommendations level indicators cooperation)
     <= 11)%nat.
Proof.
  intros level indicators cooperation.
  pose proof (hinglish_recommendations_count indicators) as Hh.
  unfold _generate_recommendations. cbv zeta.
  rewrite length_app.
  destruct level; destruct (Py.Qltb cooperation 30);
    try destruct (Py.Qgtb cooperation 70);
    cbn [app List.length]; lia.
Qed.

(** ** The separation of the turns *)

Lemma classify_loop_both (its : list item)
    (u : list user_message) (a : list assistant_message) :
  fold_left classify_item its (u, a)
  = (u ++ map customer_message (filter is_customer_item its),
     a ++ map agent_message (filter is_agent_item its)).
Proof.
  revert u a. induction its as [|it its IH]; intros u a;
    cbn [fold_left filter map].
  - now rewrite !app_nil_r.
  - unfold classify_item at 2, is_customer_item, is_agent_item.
    destruct (field_is (item_type it) "message"); cbn [andb]; [|apply IH].
    destruct (field_is (item_role it) "user") eqn:Hu.
    + apply field_is_eq in Hu. rewrite Hu.
      replace (field_is (Some "user") "assistant") with false by reflexivity.
      rewrite IH. cbn [map]. rewrite <- app_assoc. reflexivity.
    + destruct (field_is (item_role it) "assistant"); [|apply IH].
      rewrite IH. cbn [map]. rewrite <- app_assoc. reflexivity.
Qed.

(** X16. The customer turns are the message items of role "user", in
    their order, each with its fragments joined by spaces and put in lower
    case, [interrupted] defaulting to false and the confidence to 1; the
    agent turns are the message items of role "assistant"; every other
    item is dropped, so the turns are never more than the items. *)
Theorem separate_messages_by_role :
  forall data : transcript,
    let its := get (items data) [] in
    separate_messages data
    = (map customer_message (filter is_customer_item its),
       map agent_message (filter is_agent_item its)) /\
    (List.length (customer_turns data) + List.length (agent_turns data)
     <= List.length its)%nat.
Proof.
  intros data its.
  assert (Heq : separate_messages data
                = (map customer_message (filter is_customer_item its),
                   map agent_message (filter is_agent_item its))).
  { unfold separate_messages. cbv zeta. fold its.
    rewrite classify_loop_both. reflexivity. }
  split; [exact Heq|].
  unfold customer_turns, agent_turns. rewrite Heq. cbn [fst snd].
  rewrite !length_map. clearbody its. clear Heq.
  induction its as [|it its IH]; [reflexivity|].
  cbn [filter List.length]. unfold is_customer_item, is_agent_item in *.
  destruct (field_is (item_type it) "message"); cbn [andb]; [|lia].
  destruct (field_is (item_role it) "user") eqn:Hu.
  - apply field_is_eq in Hu. rewrite Hu.
    replace (field_is (Some "user") "assistant") with false by reflexivity.
    cbn [List.length]. lia.
  - destruct (field_is (item_role it) "assistant"); cbn [List.length]; lia.
Qed.

(** ** What the interruption marks and the confidence can influence *)

Lemma fold_left_text_only {S : Type} (step : S -> user_message -> S) :
  (forall st msg, step st (turn (content msg)) = step st msg) ->
  forall (u : list user_message) (st : S),
    fold_left step (text_only u) st = fold_left step u st.
Proof.
  intros Hstep. unfold text_only.
  induction u as [|msg u IH]; intros st; cbn [map fold_left]; [reflexivity|].
  now rewrite Hstep, IH.
Qed.

Lemma all_content_text_only (u : list user_message) :
  all_content_of (text_only u) = all_content_of u.
Proof.
  unfold all_content_of, text_only. rewrite map_map. reflexivity.
Qed.

Lemma language_tag_text (msg : user_message) :
  language_tag (turn (content msg)) = language_tag msg.
Proof. unfold language_tag. cbn [turn content]. reflexivity. Qed.

Lemma detect_language_switching_text_only (u : list user_message) :
  _detect_language_switching (text_only u) = _detect_language_switching u.
Proof.
  unfold _detect_language_switching. cbv zeta.
  rewrite (fold_left_text_only
             (fun pattern msg => pattern ++ [language_tag msg]))
    by (intros st msg; now rewrite language_tag_text).
  unfold Py.len, text_only. rewrite length_map. reflexivity.
Qed.

Lemma sentiment_turn_text (st : Q * Z) (msg : user_message) :
  sentiment_turn st (turn (content msg)) = sentiment_turn st msg.
Proof. unfold sentiment_turn. cbn [turn content]. reflexivity. Qed.

Lemma cooperation_turn_text (st : Z * Z) (msg : user_message) :
  cooperation_turn st (turn (content msg)) = cooperation_turn st msg.
Proof. unfold cooperation_turn. cbn [turn content]. reflexivity. Qed.

Lemma signals_text_only (u : list user_message) :
  _analyze_sentiment (text_only u) = _analyze_sentiment u /\
  _analyze_cooperation (text_only u) = _analyze_cooperation u /\
  _analyze_keywords (text_only u) = _analyze_keywords u /\
  _detect_language_switching (text_only u) = _detect_language_switching u /\
  _identify_key_indicators (text_only u) = _identify_key_indicators u.
Proof.
  split; [|split; [|split; [|split]]].
  - unfold _analyze_sentiment.
    destruct u as [|msg rest]; [reflexivity|].
    change (text_only (msg :: rest))
      with (turn (content msg) :: text_only rest) at 1.
    cbv iota.
    change (turn (content msg) :: text_only rest)
      with (text_only (msg :: rest)).
    now rewrite (fold_left_text_only sentiment_turn sentiment_turn_text).
  - unfold _analyze_cooperation.
    destruct u as [|msg rest]; [reflexivity|].
    change (text_only (msg :: rest))
      with (turn (content msg) :: text_only rest) at 1.
    cbv iota.
    change (turn (content msg) :: text_only rest)
      with (text_only (msg :: rest)).
    now rewrite (fold_left_text_only cooperation_turn cooperation_turn_text).
  - unfold _analyze_keywords.
    destruct u as [|msg rest]; [reflexivity|].
    change (text_only (msg :: rest))
      with (turn (content msg) :: text_only rest) at 1.
    cbv iota.
    change (turn (content msg) :: text_only rest)
      with (text_only (msg :: rest)).
    now rewrite all_content_text_only.
  - apply detect_language_switching_text_only.
  - unfold _identify_key_indicators. cbv zeta.
    rewrite all_content_text_only, detect_language_switching_text_only.
    destruct u as [|only [|second rest]]; reflexivity.
Qed.

(** X17. The interruption marks and the confidence values of the customer
    turns influence nothing but the flow signal: two sequences of turns
    with the same texts have the same sentiment, cooperation and keyword
    scores, the same answer of the language-switch detector and the same
    indicators. *)
Theorem marks_only_reach_flow :
  forall u1 u2 : list user_message,
    map content u1 = map content u2 ->
    _analyze_sentiment u1 = _analyze_sentiment u2 /\
    _analyze_cooperation u1 = _analyze_cooperation u2 /\
    _analyze_keywords u1 = _analyze_keywords u2 /\
    _detect_language_switching u1 = _detect_language_switching u2 /\
    _identify_key_indicators u1 = _identify_key_indicators u2.
Proof.
  intros u1 u2 Hsame.
  assert (Ht : text_only u1 = text_only u2).
  { unfold text_only. rewrite <- !(map_map content turn), Hsame. reflexivity. }
  destruct (signals_text_only u1) as (S1 & C1 & K1 & D1 & I1).
  destruct (signals_text_only u2) as (S2 & C2 & K2 & D2 & I2).
  rewrite Ht in S1, C1, K1, D1, I1.
  repeat split; congruence.
Qed.

Lemma marks_only_reach_flow_witness :
  _identify_key_indicators
    [ {| content := "paisa nahi hai"; interrupted := true; confidence := 0.4%Q |} ]
  = _identify_key_indicators [turn "paisa nahi hai"].
Proof.
  apply (marks_only_reach_flow
           [ {| content := "paisa nahi hai"; interrupted := true;
                confidence := 0.4%Q |} ]
           [turn "paisa nahi hai"]).
  reflexivity.
Defined.

(** ** One language only *)

Lemma switch_pairs_without (d : dominant) (l : list dominant) :
  d <> Mixed -> ~ In d l -> switch_pairs l = 0.
Proof.
  intros Hd. induction l as [|a [|b rest] IH]; intros Hno; try reflexivity.
  change (switch_pairs (a :: b :: rest))
    with ((if is_switch a b then 1 else 0) + switch_pairs (b :: rest)).
  rewrite IH by (intros Hin; apply Hno; now right).
  assert (Ha : a <> d) by (intros ->; apply Hno; now left).
  assert (Hb : b <> d) by (intros ->; apply Hno; right; now left).
  destruct d, a, b; cbn [is_switch]; solve [reflexivity | congruence].
Qed.

(** X18. The detector never fires for a customer none of whose turns is
    dominated by Hindi markers, nor for one none of whose turns is
    dominated by English markers. *)
Theorem one_language_never_flagged :
  forall user_messages : list user_message,
    ((forall msg, In msg user_messages -> classify_turn msg <> Hindi) \/
     (forall msg, In msg user_messages -> classify_turn msg <> English)) ->
    _detect_language_switching user_messages = false.
Proof.
  intros u Hone. rewrite detect_language_switching_eq.
  destruct (Py.len u <? 3); [reflexivity|].
  assert (Hz : switch_pairs (map classify_turn u) = 0).
  { destruct Hone as [Hno|Hno];
      [apply (switch_pairs_without Hindi) | apply (switch_pairs_without English)];
      try discriminate;
      intros Hin; apply in_map_iff in Hin; destruct Hin as [m [Hm Hin]];
      apply (Hno m Hin Hm). }
  rewrite Hz. unfold Py.Qgtb. apply Qltb_ge.
  unfold Py.len. change (inject_Z 0) with 0%Q.
  assert (Hlen : (0 <= inject_Z (Z.of_nat (List.length u)))%Q)
    by (change 0%Q with (inject_Z 0); rewrite <- Zle_Qle; lia).
  lra.
Qed.

Lemma one_language_never_flagged_witness :
  _detect_language_switching
    [turn "the bill is wrong"; turn "i will not pay"; turn "you are wrong";
     turn "we can talk"] = false.
Proof.
  apply one_language_never_flagged. left.
  intros msg [<-|[<-|[<-|[<-|[]]]]]; vm_compute; discriminate.
Defined.

(** ** Keywords in the report *)

Lemma dict_get_absent (d : list (string * string)) (key : string) :
  Forall (fun kv => fst kv <> key) d -> dict_get d key key = key.
Proof.
  induction 1 as [|[k v] d Hk _ IH]; [reflexivity|].
  cbn [dict_get]. cbn [fst] in Hk.
  destruct (String.eqb k key) eqn:E; [|exact IH].
  apply String.eqb_eq in E. contradiction.
Qed.

(** X19. A keyword written in ASCII only (English or romanized Hindi) is
    reported as it is: every key of the translation table contains a
    character outside ASCII. *)
Theorem ascii_keyword_reported_verbatim :
  forall keyword : string,
    is_ascii_text keyword = true ->
    _translate_keyword_for_report keyword = keyword.
Proof.
  intros keyword Hascii. unfold _translate_keyword_for_report.
  apply dict_get_absent.
  assert (Hkeys : Forall (fun kv => is_ascii_text (fst kv) = false) translations).
  { apply Forall_forall. intros kv Hin.
    assert (Hall : forallb (fun kv => negb (is_ascii_text (fst kv))) translations
                   = true) by (vm_compute; reflexivity).
    rewrite forallb_forall in Hall. specialize (Hall kv Hin).
    now apply negb_true_iff in Hall. }
  revert Hkeys. apply Forall_impl. intros kv Hkv Heq.
  rewrite Heq in Hkv. congruence.
Qed.

Lemma ascii_keyword_reported_verbatim_witness :
  _translate_keyword_for_report "paisa nahi" = "paisa nahi".
Proof.
  apply ascii_keyword_reported_verbatim. vm_compute. reflexivity.
Defined.

(** ** The statistics of the report *)

Lemma counts_incr_at (d : RiskLevel -> Z) (k level : RiskLevel) :
  counts_incr d k level = d level + (if RiskLevel_eqb k level then 1 else 0).
Proof. unfold counts_incr. destruct level, k; cbn; lia. Qed.

Lemma tally_loop (analyses : list RiskAnalysis) (d : RiskLevel -> Z) (t : Q) :
  (forall level,
     fst (fold_left tally_step analyses (d, t)) level
     = d level + at_level level analyses) /\
  (snd (fold_left tally_step analyses (d, t))
   == t + Qsum (map risk_score analyses))%Q.
Proof.
  unfold at_level, Py.len.
  revert d t. induction analyses as [|a rest IH]; intros d t;
    cbn [fold_left map filter].
  - cbn [fst snd List.length Qsum fold_right]. split; [intros; lia | ring].
  - unfold tally_step at 2. unfold tally_step at 3.
    destruct (IH (counts_incr d (risk_level a)) (t + risk_score a)%Q)
      as [IHc IHt].
    split.
    + intros level. rewrite IHc, counts_incr_at.
      destruct (RiskLevel_eqb (risk_level a) level); cbn [List.length]; lia.
    + rewrite IHt, Qsum_cons. ring.
Qed.

Lemma at_level_total (analyses : list RiskAnalysis) :
  at_level LOW analyses + at_level MEDIUM analyses
  + at_level HIGH analyses + at_level CRITICAL analyses
  = Py.len analyses.
Proof.
  unfold at_level, Py.len. induction analyses as [|a rest IH]; [reflexivity|].
  cbn [filter List.length]. destruct (risk_level a); cbn [RiskLevel_eqb List.length];
    lia.
Qed.

(** X20. In the report each level is counted as many times as there are
    analyses at that level, and the four counts add up to the number of
    analyses. *)
Theorem report_tally_counts :
  forall analyses : list RiskAnalysis,
    let risk_counts := fst (report_tally analyses) in
    (forall level, risk_counts level = at_level level analyses) /\
    total_of (map risk_counts RiskLevel_members) = Py.len analyses.
Proof.
  intros analyses risk_counts.
  assert (Hc : forall level, risk_counts level = at_level level analyses).
  { intros level. unfold risk_counts, report_tally.
    destruct (tally_loop analyses counts_init 0%Q) as [H _].
    rewrite H. unfold counts_init. lia. }
  split; [exact Hc|].
  pose proof (at_level_total analyses) as Htot.
  cbn [RiskLevel_members map total_of fold_right]. rewrite !Hc. lia.
Qed.





(** ** The order of the blocks of the report *)

Lemma insert_desc_perm {A : Type} (key : A -> Q) (x : A) (l : list A) :
  Permutation (insert_desc key x l) (x :: l).
Proof.
  induction l as [|y l IH]; cbn [insert_desc]; [reflexivity|].
  destruct (Py.Qltb (key x) (key y)); [|reflexivity].
  rewrite IH. apply perm_swap.
Qed.

Lemma insert_desc_decreasing {A : Type} (key : A -> Q) (x : A) (l : list A) :
  decreasing key l -> decreasing key (insert_desc key x l).
Proof.
  unfold decreasing. induction 1 as [|y l Hl IH Hy]; cbn [insert_desc].
  - constructor; constructor.
  - destruct (Py.Qltb (key x) (key y)) eqn:E.
    + apply Qltb_lt in E. constructor; [exact IH|].
      apply (Permutation_Forall (x := x :: l)).
      * symmetry. apply insert_desc_perm.
      * constructor; [apply Qlt_le_weak, E | exact Hy].
    + apply Qltb_ge in E. constructor; [constructor; assumption|].
      constructor; [exact E|].
      revert Hy. apply Forall_impl. intros z Hz.
      apply Qle_trans with (key y); assumption.
Qed.

Lemma insert_desc_In {A : Type} (key : A -> Q) (x y : A) (l : list A) :
  In y l -> In y (insert_desc key x l).
Proof.
  intros Hin. apply (Permutation_in (l := x :: l)).
  - symmetry. apply insert_desc_perm.
  - now right.
Qed.

Lemma sorted_desc_perm {A : Type} (key : A -> Q) (l : list A) :
  Permutation (sorted_desc key l) l.
Proof.
  unfold sorted_desc. induction l as [|a rest IH]; cbn [fold_right];
    [reflexivity|].
  rewrite insert_desc_perm. now constructor.
Qed.

Lemma sorted_desc_decreasing {A : Type} (key : A -> Q) (l : list A) :
  decreasing key (sorted_desc key l).
Proof.
  unfold sorted_desc. induction l as [|a rest IH]; cbn [fold_right].
  - constructor.
  - apply insert_desc_decreasing, IH.
Qed.

(** An inserted element leaves the elements already there in their
    order, and comes before those whose key is not greater than its
    own. *)
Lemma insert_desc_keeps_order {A : Type} (key : A -> Q) (x a b : A)
    (l : list A) :
  occurs_before a b l -> occurs_before a b (insert_desc key x l).
Proof.
  induction 1 as [l Hb|y l Hab IH]; cbn [insert_desc].
  - destruct (Py.Qltb (key x) (key a)).
    + constructor. now apply insert_desc_In.
    + apply ob_later. now constructor.
  - destruct (Py.Qltb (key x) (key y)).
    + apply ob_later, IH.
    + apply ob_later. now apply ob_later.
Qed.

Lemma insert_desc_before {A : Type} (key : A -> Q) (x y : A) (l : list A) :
  In y l -> (key y <= key x)%Q -> occurs_before x y (insert_desc key x l).
Proof.
  intros Hin Hle. induction l as [|z l IH]; [destruct Hin|].
  cbn [insert_desc]. destruct (Py.Qltb (key x) (key z)) eqn:E.
  - apply Qltb_lt in E. destruct Hin as [->|Hin].
    + exfalso. apply (Qlt_not_le _ _ E Hle).
    + apply ob_later, IH, Hin.
  - now constructor.
Qed.

(** The sort is stable: of two elements the first of which has a key not
    smaller than the second's, the first stays first. *)
Lemma sorted_desc_stable {A : Type} (key : A -> Q) (a b : A) (l : list A) :
  occurs_before a b l -> (key b <= key a)%Q ->
  occurs_before a b (sorted_desc key l).
Proof.
  intros Hab Hle. unfold sorted_desc.
  induction Hab as [l Hb|y l Hab IH]; cbn [fold_right].
  - apply insert_desc_before; [|exact Hle].
    apply (Permutation_in (l := l)); [|exact Hb].
    symmetry. apply sorted_desc_perm.
  - apply insert_desc_keeps_order, IH.
Qed.

(** In a list in decreasing order an element of greater key comes
    first. *)
Lemma decreasing_before {A : Type} (key : A -> Q) (a b : A) (l : list A) :
  decreasing key l -> In a l -> In b l -> (key b < key a)%Q ->
  occurs_before a b l.
Proof.
  unfold decreasing. induction 1 as [|z l Hl IH Hz]; intros Ha Hb Hlt;
    [destruct Ha|].
  rewrite Forall_forall in Hz.
  destruct Ha as [->|Ha].
  - destruct Hb as [->|Hb]; [exfalso; apply (Qlt_irrefl _ Hlt)|].
    now constructor.
  - destruct Hb as [->|Hb].
    + exfalso. apply (Qlt_not_le _ _ Hlt). now apply Hz.
    + apply ob_later. now apply IH.
Qed.

Lemma occurs_before_split {A : Type} (a b : A) (l : list A) :
  occurs_before a b l -> exists l1 l2 l3, l = l1 ++ a :: l2 ++ b :: l3.
Proof.
  induction 1 as [l Hb|y l Hab IH].
  - apply in_split in Hb. destruct Hb as [l2 [l3 ->]].
    now exists [], l2, l3.
  - destruct IH as [l1 [l2 [l3 ->]]]. now exists (y :: l1), l2, l3.
Qed.

(** Joining lines: a run of lines inside a longer list is a piece of the
    joined text, and two runs one after the other are two pieces one
    after the other. *)
Lemma join_app_nonempty (X Y : list string) :
  X <> [] -> Y <> [] ->
  Py.join LF (X ++ Y) = (Py.join LF X ++ LF ++ Py.join LF Y)%string.
Proof.
  unfold Py.join. intros HX HY. induction X as [|x X IH]; [congruence|].
  destruct X as [|x' X].
  - destruct Y as [|y Y]; [congruence|]. reflexivity.
  - change (String.concat LF ((x :: x' :: X) ++ Y))
      with (x ++ LF ++ String.concat LF ((x' :: X) ++ Y))%string.
    rewrite IH by discriminate.
    change (String.concat LF (x :: x' :: X))
      with (x ++ LF ++ String.concat LF (x' :: X))%string.
    now rewrite !append_assoc.
Qed.

Lemma join_run_first (X T : list string) :
  X <> [] -> exists post, Py.join LF (X ++ T) = (Py.join LF X ++ post)%string.
Proof.
  intros HX. destruct T as [|t T].
  - exists ""%string. now rewrite app_nil_r, append_empty_r.
  - exists (LF ++ Py.join LF (t :: T))%string.
    apply join_app_nonempty; [exact HX | discriminate].
Qed.

Lemma join_run_last (P Z : list string) :
  Z <> [] -> exists pre, Py.join LF (P ++ Z) = (pre ++ Py.join LF Z)%string.
Proof.
  intros HZ. destruct P as [|p P].
  - now exists ""%string.
  - exists (Py.join LF (p :: P) ++ LF)%string.
    rewrite join_app_nonempty by (discriminate || exact HZ).
    now rewrite append_assoc.
Qed.

Lemma app_nonempty_r {A : Type} (X Y : list A) : Y <> [] -> X ++ Y <> [].
Proof. intros HY H. apply app_eq_nil in H. now destruct H. Qed.

Lemma app_nonempty_l {A : Type} (X Y : list A) : X <> [] -> X ++ Y <> [].
Proof. intros HX H. apply app_eq_nil in H. now destruct H. Qed.

Lemma join_two_runs (P X M Y S : list string) :
  X <> [] -> Y <> [] ->
  shown_before (Py.join LF X) (Py.join LF Y)
    (Py.join LF (P ++ X ++ M ++ Y ++ S)).
Proof.
  intros HX HY. unfold shown_before.
  destruct (join_run_last P (X ++ M ++ Y ++ S)) as [pre Hpre];
    [now apply app_nonempty_l|].
  destruct (join_run_last M (Y ++ S)) as [mid Hmid];
    [now apply app_nonempty_l|].
  destruct (join_run_first Y S HY) as [post Hpost].
  exists pre, (LF ++ mid)%string, post.
  rewrite Hpre, join_app_nonempty, Hmid, Hpost;
    [| exact HX | now apply app_nonempty_r, app_nonempty_l].
  now rewrite !append_assoc.
Qed.

Lemma analysis_block_nonempty (format_float : nat -> Q -> string)
    (basename : string -> string) (a : RiskAnalysis) :
  analysis_block format_float basename a <> [].
Proof.
  unfold analysis_block. cbv zeta. apply app_nonempty_r. discriminate.
Qed.

(** The text of a report of at least one analysis: some heading lines,
    then the blocks of the analyses in sorted order. *)
Lemma generate_report_text (format_float : nat -> Q -> string)
    (basename : string -> string) (now : string)
    (analyses : list RiskAnalysis) (output_file : option string) :
  analyses <> [] ->
  exists heading,
    fst (generate_report format_float basename now analyses output_file)
    = Py.join LF
        (heading ++ flat_map (analysis_block format_float basename)
                             (sorted_desc risk_score analyses)).
Proof.
  intros Hne. unfold generate_report.
  destruct analyses as [|b rest]; [congruence|].
  destruct (report_tally (b :: rest)) as [risk_counts total_risk_score].
  cbv zeta.
  match goal with
  | |- context [Py.join LF (?h ++ flat_map _ _)] => exists h
  end.
  destruct output_file as [name|]; [destruct (String.eqb name "")|];
    reflexivity.
Qed.

Lemma blocks_in_order (format_float : nat -> Q -> string)
    (basename : string -> string) (now : string)
    (analyses : list RiskAnalysis) (output_file : option string)
    (a b : RiskAnalysis) :
  occurs_before a b (sorted_desc risk_score analyses) ->
  shown_before (block_text format_float basename a)
    (block_text format_float basename b)
    (fst (generate_report format_float basename now analyses output_file)).
Proof.
  intros Hab.
  assert (Hne : analyses <> []).
  { intros ->. inversion Hab. }
  destruct (generate_report_text format_float basename now analyses
              output_file Hne) as [heading ->].
  apply occurs_before_split in Hab. destruct Hab as [l1 [l2 [l3 ->]]].
  rewrite flat_map_app. cbn [flat_map]. rewrite flat_map_app. cbn [flat_map].
  rewrite app_assoc. unfold block_text.
  apply join_two_runs; apply analysis_block_nonempty.
Qed.

(** X22. The blocks of the report are in decreasing order of risk score:
    of two analyses given, the block of the one with the greater score
    comes first in the text, and of two analyses with equal scores the
    block of the one given first comes first. *)
Theorem report_blocks_sorted :
  forall (format_float : nat -> Q -> string) (basename : string -> string)
         (now : string) (analyses : list RiskAnalysis)
         (output_file : option string),
    let text :=
      fst (generate_report format_float basename now analyses output_file) in
    (forall a b,
       In a analyses -> In b analyses ->
       (risk_score b < risk_score a)%Q ->
       shown_before (block_text format_float basename a)
                    (block_text format_float basename b) text) /\
    (forall a b,
       occurs_before a b analyses ->
       (risk_score b == risk_score a)%Q ->
       shown_before (block_text format_float basename a)
                    (block_text format_float basename b) text).
Proof.
  intros format_float basename now analyses output_file text. unfold text.
  split; intros a b.
  - intros Ha Hb Hlt. apply blocks_in_order.
    apply (decreasing_before risk_score).
    + apply sorted_desc_decreasing.
    + apply (Permutation_in (l := analyses)); [|exact Ha].
      symmetry. apply sorted_desc_perm.
    + apply (Permutation_in (l := analyses)); [|exact Hb].
      symmetry. apply sorted_desc_perm.
    + exact Hlt.
  - intros Hab Heq. apply blocks_in_order.
    apply sorted_desc_stable; [exact Hab|].
    rewrite Heq. apply Qle_refl.
Qed.

Lemma report_blocks_sorted_witness :
  shown_before
    (block_text plain_float (fun path => path)
       (analyze_transcript "b.json" "t" refusing_transcript))
    (block_text plain_float (fun path => path)
       (analyze_transcript "a.json" "t" agent_only_transcript))
    (fst (generate_report plain_float (fun path => path) "2026-01-01 00:00:00"
            [analyze_transcript "a.json" "t" agent_only_transcript;
             analyze_transcript "b.json" "t" refusing_transcript] None)).
Proof.
  apply (proj1 (report_blocks_sorted plain_float (fun path => path)
                  "2026-01-01 00:00:00"
                  [analyze_transcript "a.json" "t" agent_only_transcript;
                   analyze_transcript "b.json" "t" refusing_transcript] None)).
  - right. left. reflexivity.
  - left. reflexivity.
  - vm_compute. reflexivity.
Defined.

(** ** What the report shows *)

Lemma str_in_joined_line (line : string) (report : list string) :
  In line report -> Py.str_in line (Py.join LF report) = true.
Proof.
  intros Hin. destruct (join_In LF line report Hin) as [pre [post ->]].
  apply str_in_spec. now exists pre, post.
Qed.

Lemma analysis_block_lines (format_float : nat -> Q -> string)
    (basename : string -> string) (a : RiskAnalysis) :
  In (LF ++ "File: " ++ basename (transcript_file a))%string
     (analysis_block format_float basename a) /\
  (forall indicator, In indicator (key_indicators a) ->
     In ("  • " ++ indicator)%string (analysis_block format_float basename a)) /\
  (forall rec, In rec (recommendations a) ->
     In ("  • " ++ rec)%string (analysis_block format_float basename a)).
Proof.
  unfold analysis_block. cbv zeta. cbn [app].
  split; [|split].
  - destruct (key_indicators a), (recommendations a); cbv beta iota;
      rewrite ?in_app_iff; cbn [In]; tauto.
  - intros indicator Hin.
    assert (Hb : In ("  • " ++ indicator)%string
                    (map (fun i => ("  • " ++ i)%string) (key_indicators a)))
      by (apply in_map_iff; now exists indicator).
    destruct (key_indicators a) as [|i rest]; [destruct Hin|].
    destruct (recommendations a); cbv beta iota; rewrite ?in_app_iff;
      cbn [In]; tauto.
  - intros rec Hin.
    assert (Hb : In ("  • " ++ rec)%string
                    (map (fun i => ("  • " ++ i)%string) (recommendations a)))
      by (apply in_map_iff; now exists rec).
    destruct (recommendations a) as [|r rs]; [destruct Hin|].
    cbv beta iota. rewrite ?in_app_iff. cbn [In]. tauto.
Qed.

Lemma generate_report_blocks (format_float : nat -> Q -> string)
    (basename : string -> string) (now : string)
    (analyses : list RiskAnalysis) (output_file : option string)
    (a : RiskAnalysis) (line : string) :
  In a analyses ->
  In line (analysis_block format_float basename a) ->
  Py.str_in line
    (fst (generate_report format_float basename now analyses output_file))
  = true.
Proof.
  intros Ha Hline.
  assert (Hsorted : In a (sorted_desc risk_score analyses)).
  { unfold sorted_desc. clear Hline.
    induction analyses as [|b rest IH]; [destruct Ha|]. cbn [fold_right].
    apply (Permutation_in (l := b :: fold_right (insert_desc risk_score) [] rest)).
    - symmetry. apply insert_desc_perm.
    - destruct Ha as [->|Ha]; [now left | right; now apply IH]. }
  unfold generate_report.
  destruct analyses as [|b rest]; [destruct Ha|].
  destruct (report_tally (b :: rest)) as [risk_counts total_risk_score].
  cbv zeta.
  set (report := (_ ++ flat_map _ _)).
  assert (Hin : In line report).
  { unfold report. apply in_or_app. right. apply in_flat_map.
    exists a. split; assumption. }
  pose proof (str_in_joined_line line report Hin) as Hs.
  destruct output_file as [name|]; [destruct (String.eqb name "")|];
    cbn [fst]; exact Hs.
Qed.

(** X23. The report leaves nothing out: for every analysis given, the
    text contains the line of its file name and a bullet line for each of
    its indicators and each of its recommendations. *)
Theorem generate_report_shows_everything :
  forall (format_float : nat -> Q -> string) (basename : string -> string)
         (now : string) (analyses : list RiskAnalysis)
         (output_file : option string) (a : RiskAnalysis),
    In a analyses ->
    let text :=
      fst (generate_report format_float basename now analyses output_file) in
    Py.str_in (LF ++ "File: " ++ basename (transcript_file a))%string text = true /\
    (forall indicator, In indicator (key_indicators a) ->
       Py.str_in ("  • " ++ indicator)%string text = true) /\
    (forall rec, In rec (recommendations a) ->
       Py.str_in ("  • " ++ rec)%string text = true).
Proof.
  intros format_float basename now analyses output_file a Ha text.
  destruct (analysis_block_lines format_float basename a) as (Hf & Hi & Hr).
  unfold text. split; [|split].
  - now apply (generate_report_blocks _ _ _ _ _ a).
  - intros indicator Hin. apply (generate_report_blocks _ _ _ _ _ a); auto.
  - intros rec Hin. apply (generate_report_blocks _ _ _ _ _ a); auto.
Qed.

Lemma generate_report_shows_everything_witness :
  Py.str_in ("  • " ++ avoidance_flag)%string
    (fst (generate_report plain_float (fun path => path) "2026-01-01 00:00:00"
            [analyze_transcript "a.json" "t" agent_only_transcript] None))
  = true.
Proof.
  apply (proj1 (proj2
           (generate_report_shows_everything plain_float (fun path => path)
              "2026-01-01 00:00:00"
              [analyze_transcript "a.json" "t" agent_only_transcript] None
              (analyze_transcript "a.json" "t" agent_only_transcript)
              (or_introl eq_refl)))).
  vm_compute. now left.
Defined.
